(** * Shallow embedding of the conjure delegation tools

    The three Python modules of [src/tools]: [quota_tracker.py]
    (GeminiQuotaTracker), [usage_logger.py] (GeminiUsageLogger) and
    [delegation_executor.py] (Delegator).

    Conventions used throughout:
    - a [datetime] is its POSIX time in microseconds, a [Z];
      [timedelta] arithmetic is subtraction of these;
    - a comparison [x / y > 0.8] between ints [x], [y] and a float
      constant is decided as Python does it: [x / y] is the double nearest
      the exact quotient, compared with the double the constant denotes;
    - the file system is explicit state; a write that raises [OSError]
      is a flag of that state. *)

From Stdlib Require Import ZArith List String Bool Lia.
Import ListNotations.
Open Scope string_scope.
Open Scope list_scope.
Open Scope Z_scope.

(** One second, one minute and one day in microseconds. *)
Definition SECOND : Z := 1000000.
Definition MINUTE : Z := 60 * SECOND.
Definition DAY : Z := 86400 * SECOND.

(** [timedelta.days]: Python normalises a timedelta so that
    [0 <= seconds < 86400]; the day count is the floor quotient. *)
Definition td_days (delta : Z) : Z := Z.div delta DAY.

(** [timedelta.seconds]: the seconds component in [0, 86400), NOT the
    total number of seconds. *)
Definition td_seconds (delta : Z) : Z := Z.modulo (Z.div delta SECOND) 86400.

(** [x / l > num / den] for [den > 0] and [l <> 0], decided on the
    rationals. *)
Definition ratio_gt (x l num den : Z) : bool :=
  if 0 <? l then num * l <? den * x else den * x <? num * l.

(** Python's [x / l > c] for ints [x], [l <> 0] and a double [c] of
    [[0.5, 1)], written [m * 2^-53] with [2^52 <= m < 2^53]. The int
    division gives the double nearest the exact quotient (ties to even);
    that double is above [c] exactly when the quotient is above the
    midpoint [(2m + 1) * 2^-54] between [c] and the next double, or equal
    to it when [m] is odd (the tie then rounds up). *)
Definition float_ratio_gt (x l m : Z) : bool :=
  ratio_gt x l (2 * m + 1) (2 ^ 54) || (Z.odd m && (x * 2 ^ 54 =? (2 * m + 1) * l)).

(** Whether Python's int division [x / l] raises: [ZeroDivisionError] for
    [l = 0], [OverflowError] when the quotient rounds past the largest
    double, i.e. when [|x / l| >= (2^54 - 1) * 2^970]. *)
Definition truediv_raises (x l : Z) : bool :=
  (l =? 0) || ((2 ^ 54 - 1) * 2 ^ 970 * Z.abs l <=? Z.abs x).

(* ------------------------------------------------------------------ *)
(** ** quota_tracker.py *)

Module QuotaTracker.

(** [self.limits], the four keys of [DEFAULT_LIMITS]. *)
Record Limits := mkLimits {
  requests_per_minute : Z;
  requests_per_day : Z;
  tokens_per_minute : Z;
  tokens_per_day : Z
}.

Definition DEFAULT_LIMITS : Limits := mkLimits 60 1000 32000 1000000.

(** One element of [usage_data["requests"]]. *)
Record Request := mkRequest {
  timestamp : Z;
  tokens : Z;
  success : bool
}.

(** [self.usage_data]; [last_reset] is [None] when the key is absent. *)
Record UsageData := mkUsageData {
  requests : list Request;
  daily_tokens : Z;
  last_reset : option Z
}.

(** [_cleanup_old_data(data)] at time [now]. *)
Definition _cleanup_old_data (now : Z) (data : UsageData) : UsageData :=
  let cutoff := now - DAY in
  let reqs := filter (fun req => cutoff <? timestamp req) (requests data) in
  let lr := match last_reset data with Some t => t | None => now end in
  if 1 <=? td_days (now - lr)
  then mkUsageData reqs 0 (Some now)
  else mkUsageData reqs (daily_tokens data) (last_reset data).

(** [record_request(estimated_tokens, success)] at time [now]: the
    in-memory update of [usage_data]; [_save_usage_data] then writes this
    value to [usage.json]. *)
Definition record_request (now estimated_tokens : Z) (success : bool)
    (data : UsageData) : UsageData :=
  let request_data := mkRequest now estimated_tokens success in
  mkUsageData (requests data ++ [request_data])
    (if success then daily_tokens data + estimated_tokens else daily_tokens data)
    (last_reset data).

(** The dictionary returned by [get_current_usage]. *)
Record Usage := mkUsage {
  requests_last_minute : Z;
  tokens_last_minute : Z;
  u_daily_tokens : Z;
  requests_today : Z
}.

Definition sum_tokens (rs : list Request) : Z :=
  fold_right (fun r acc => tokens r + acc) 0 rs.

(** [get_current_usage()] at time [now]. *)
Definition get_current_usage (now : Z) (data : UsageData) : Usage :=
  let one_minute_ago := now - MINUTE in
  let recent_requests :=
    filter (fun req => one_minute_ago <? timestamp req) (requests data) in
  mkUsage (Z.of_nat (List.length recent_requests)) (sum_tokens recent_requests)
    (daily_tokens data) (Z.of_nat (List.length (requests data))).

(** [can_handle_task(estimated_tokens)] on the usage [get_current_usage]
    returned. *)
Definition can_handle_task (lim : Limits) (usage : Usage)
    (estimated_tokens : Z) : bool * list string :=
  if requests_last_minute usage >=? requests_per_minute lim - 1 then
    (false, ["Request rate limit reached - wait 1 minute"])
  else if tokens_last_minute usage + estimated_tokens >? tokens_per_minute lim then
    (false, ["Token rate limit would be exceeded - wait or split task"])
  else if u_daily_tokens usage + estimated_tokens >? tokens_per_day lim then
    (false, ["Daily token quota would be exceeded - wait for reset"])
  else (true, []).

(** The elements of the warnings list of [get_quota_status]. The four
    formatted ones carry the values their f-string prints
    ([_format_rpm_warning] and siblings; the percentage printed by the daily
    ones is [current / limit]). *)
Inductive Warning :=
  | RpmWarning (rpm limit : Z)
  | TpmWarning (tpm limit : Z)
  | DailyTokensWarning (current limit : Z)
  | DailyRequestsWarning (current limit : Z)
  | RateLimitImmediate   (* "IMMEDIATE: Approaching rate limits! Wait or reduce usage." *)
  | DailyQuotaCritical.  (* "CRITICAL: Daily quota nearly exhausted! Large tasks may fail." *)

(** The doubles [WARN_THRESHOLD = 0.8] and [CRITICAL_THRESHOLD = 0.95]
    as [m * 2^-53]. *)
Definition WARN_THRESHOLD_M : Z := 7205759403792794.
Definition CRITICAL_THRESHOLD_M : Z := 8556839292003942.

Definition over_warn (x l : Z) : bool := float_ratio_gt x l WARN_THRESHOLD_M.
Definition over_critical (x l : Z) : bool := float_ratio_gt x l CRITICAL_THRESHOLD_M.

(** Whether one of the four divisions [get_quota_status] starts with
    raises ([ZeroDivisionError] or [OverflowError]). *)
Definition quota_divisions_raise (lim : Limits) (usage : Usage) : bool :=
  truediv_raises (requests_last_minute usage) (requests_per_minute lim)
  || truediv_raises (tokens_last_minute usage) (tokens_per_minute lim)
  || truediv_raises (u_daily_tokens usage) (tokens_per_day lim)
  || truediv_raises (requests_today usage) (requests_per_day lim).

(** [get_quota_status()]; [None] is the exception of one of its four
    divisions. *)
Definition get_quota_status (lim : Limits) (usage : Usage)
    : option (string * list Warning) :=
  if quota_divisions_raise lim usage then None
  else
  let rpm := requests_last_minute usage in
  let tpm := tokens_last_minute usage in
  let dt := u_daily_tokens usage in
  let dr := requests_today usage in
  let '(s1, w1) :=
    if over_warn rpm (requests_per_minute lim)
    then ("[WARNING] High RPM", [RpmWarning rpm (requests_per_minute lim)])
    else ("[OK] Healthy", []) in
  let '(s2, w2) :=
    if over_warn tpm (tokens_per_minute lim)
    then ((if String.eqb s1 "[OK] Healthy" then "[WARNING] High TPM" else s1),
          w1 ++ [TpmWarning tpm (tokens_per_minute lim)])
    else (s1, w1) in
  let '(s3, w3) :=
    if over_warn dt (tokens_per_day lim)
    then ("[WARNING] Daily Token Warning",
          w2 ++ [DailyTokensWarning dt (tokens_per_day lim)])
    else (s2, w2) in
  let '(s4, w4) :=
    if over_warn dr (requests_per_day lim)
    then ("[WARNING] Daily Request Warning",
          w3 ++ [DailyRequestsWarning dr (requests_per_day lim)])
    else (s3, w3) in
  let '(s5, w5) :=
    if over_critical rpm (requests_per_minute lim)
       || over_critical tpm (tokens_per_minute lim)
    then ("[CRITICAL] Rate Limit Soon", w4 ++ [RateLimitImmediate])
    else (s4, w4) in
  let '(s6, w6) :=
    if over_critical dt (tokens_per_day lim)
       || over_critical dr (requests_per_day lim)
    then ("[CRITICAL] Daily Quota Exhausted", w5 ++ [DailyQuotaCritical])
    else (s5, w5) in
  Some (s6, w6).

(** What [usage.json] holds when [_load_usage_data] runs: no file; a
    file [json.load] or the cleanup rejects with an exception the method
    catches ([JSONDecodeError], [KeyError]); a file whose reading or
    cleanup raises another exception ([OSError] from [open], such as a
    [PermissionError], or [ValueError] from [datetime.fromisoformat]); or
    a usage dictionary. *)
Inductive UsageFile :=
  | NoUsageFile
  | CorruptUsageFile
  | UnreadableUsageFile
  | UsageFileData (data : UsageData).

(** [_load_usage_data()] at time [now]; [None] is an exception that
    propagates. *)
Definition _load_usage_data (now : Z) (f : UsageFile) : option UsageData :=
  match f with
  | UsageFileData data => Some (_cleanup_old_data now data)
  | NoUsageFile | CorruptUsageFile => Some (mkUsageData [] 0 (Some now))
  | UnreadableUsageFile => None
  end.

(** [str.endswith(suffix)]. *)
Definition ends_with (s suffix : string) : bool :=
  let n := String.length s in
  let m := String.length suffix in
  (m <=? n)%nat && String.eqb (substring (n - m) m s) suffix.

(** The directories [estimate_task_tokens] prunes from [os.walk]. *)
Definition skipped_dir (d : string) : bool :=
  existsb (String.eqb d)
    ["__pycache__"; "node_modules"; ".git"; "venv"; ".venv"; "dist"; "build"].

(** The file endings [estimate_task_tokens] counts. *)
Definition counted_file (f : string) : bool :=
  existsb (ends_with f) [".py"; ".js"; ".ts"; ".md"; ".yaml"; ".yml"; ".json"].

(** A directory as [os.walk] sees it: its files with the result of
    [os.path.getsize] ([None]: it raises [OSError]) and its subdirectories,
    in listing order. *)
#[warnings="-register-all"]
Inductive WalkTree :=
  | WT (files : list (string * option Z)) (subdirs : list (string * WalkTree)).

(** The [os.walk] loop of [estimate_task_tokens] from [total]: the files of
    each directory, then its unpruned subdirectories, top-down. The flag is
    [false] when a [getsize] raised, which ends the walk of this path with
    the sizes already added kept. *)
Fixpoint walk_total (t : WalkTree) (total : Z) : Z * bool :=
  match t with
  | WT files subdirs =>
      let fix add_files (fs : list (string * option Z)) (total : Z) : Z * bool :=
        match fs with
        | [] => (total, true)
        | (f, sz) :: rest =>
            if counted_file f then
              match sz with
              | Some n => add_files rest (total + n)
              | None => (total, false)
              end
            else add_files rest total
        end in
      let fix walk_subdirs (ds : list (string * WalkTree)) (total : Z) : Z * bool :=
        match ds with
        | [] => (total, true)
        | (d, sub) :: rest =>
            if skipped_dir d then walk_subdirs rest total
            else
              let '(total', ok) := walk_total sub total in
              if ok then walk_subdirs rest total' else (total', false)
        end in
      let '(total1, ok1) := add_files files total in
      if ok1 then walk_subdirs subdirs total1 else (total1, false)
  end.

(** The two inner loops of [walk_total], named. *)
Fixpoint walk_add_files (fs : list (string * option Z)) (total : Z) : Z * bool :=
  match fs with
  | [] => (total, true)
  | (f, sz) :: rest =>
      if counted_file f then
        match sz with
        | Some n => walk_add_files rest (total + n)
        | None => (total, false)
        end
      else walk_add_files rest total
  end.

Fixpoint walk_subdirs (ds : list (string * WalkTree)) (total : Z) : Z * bool :=
  match ds with
  | [] => (total, true)
  | (d, sub) :: rest =>
      if skipped_dir d then walk_subdirs rest total
      else
        let '(total', ok) := walk_total sub total in
        if ok then walk_subdirs rest total' else (total', false)
  end.

(** One step down a directory tree: the files of the directory, its
    subdirectories before and after the one entered, and that one's name. *)
Definition Frame : Type :=
  (list (string * option Z) * list (string * WalkTree) * string * list (string * WalkTree))%type.

(** The tree with [t] at the end of [path]. *)
Fixpoint plug (path : list Frame) (t : WalkTree) : WalkTree :=
  match path with
  | [] => t
  | (files, pre, d, post) :: rest => WT files (pre ++ (d, plug rest t) :: post)
  end.

(** What a path given to [estimate_task_tokens] names. *)
Inductive PathEntry :=
  | PFile (size : option Z)
  | PDir (tree : WalkTree)
  | PMissing.

(** [estimate_task_tokens(file_paths, prompt_length)]. *)
Definition estimate_task_tokens (fs : string -> PathEntry) (file_paths : list string)
    (prompt_length : Z) : Z :=
  let step (total_chars : Z) (file_path : string) : Z :=
    match fs file_path with
    | PFile (Some n) => total_chars + n
    | PFile None => total_chars
    | PDir t => fst (walk_total t total_chars)
    | PMissing => total_chars
    end in
  fold_left step file_paths prompt_length / 4.

(** The four usage figures are below [2^970] in size. *)
Definition usage_in_range (u : Usage) : Prop :=
  Z.abs (requests_last_minute u) < 2 ^ 970 /\ Z.abs (tokens_last_minute u) < 2 ^ 970 /\
  Z.abs (u_daily_tokens u) < 2 ^ 970 /\ Z.abs (requests_today u) < 2 ^ 970.

End QuotaTracker.

(* ------------------------------------------------------------------ *)
(** ** usage_logger.py *)

Module UsageLogger.

(** [SESSION_TIMEOUT_SECONDS]. *)
Definition SESSION_TIMEOUT_SECONDS : Z := 3600.

(** The exception a file operation raises. *)
Inductive PyError := OSError.

(** Code that may raise. *)
Inductive result (A : Type) :=
  | Ok (a : A)
  | Raise (e : PyError).
Arguments Ok {A} a.
Arguments Raise {A} e.

Definition bind {A B} (m : result A) (f : A -> result B) : result B :=
  match m with Ok a => f a | Raise e => Raise e end.

Notation "'let*' x ':=' m 'in' f" := (bind m (fun x => f))
  (at level 200, x pattern, m at level 100, f at level 200).

(** The [UsageEntry] dataclass; [duration] is a float, kept abstract as
    a [Z]. *)
Record UsageEntry := mkUsageEntry {
  command : string;
  estimated_tokens : Z;
  actual_tokens : option Z;
  success : bool;
  duration : option Z;
  error : option string
}.

(** One JSON line of [usage.jsonl] written by [log_usage]; the session id
    [session_<n>] is represented by [n]. *)
Record LogEntry := mkLogEntry {
  le_timestamp : Z;
  le_command : string;
  le_estimated_tokens : Z;
  le_actual_tokens : Z;
  le_success : bool;
  le_duration_seconds : option Z;
  le_error : option string;
  le_session_id : Z
}.

(** A line of [usage.jsonl]: an entry, or a line [get_usage_summary]
    skips ([JSONDecodeError] or [KeyError]). *)
Inductive LogLine :=
  | Line (e : LogEntry)
  | Malformed.

(** [current_session.json]. A file written by [_get_session_id] has no
    counters, read back as 0 by [.get(..., 0)]; one written after
    [_update_session_stats] created it from scratch has no [start_time]. *)
Record SessionData := mkSessionData {
  session_id : Z;
  start_time : option Z;
  last_activity : Z;
  total_requests : Z;
  total_tokens : Z;
  successful_requests : Z
}.

(** The files of [self.log_dir] and whether writing each raises. *)
Record State := mkState {
  usage_log : option (list LogLine);
  session_file : option SessionData;
  usage_log_writable : bool;
  session_file_writable : bool
}.

Definition set_usage_log (l : list LogLine) (st : State) : State :=
  mkState (Some l) (session_file st) (usage_log_writable st) (session_file_writable st).

Definition set_session_file (sd : SessionData) (st : State) : State :=
  mkState (usage_log st) (Some sd) (usage_log_writable st) (session_file_writable st).

(** [int(time.time())] truncates toward zero. *)
Definition int_time (now : Z) : Z := Z.quot now SECOND.

(** [_get_session_id()] at time [now]. *)
Definition _get_session_id (now : Z) (st : State) : result (Z * State) :=
  let create :=
    let sid := int_time now in
    if session_file_writable st
    then Ok (sid, set_session_file (mkSessionData sid (Some now) now 0 0 0) st)
    else Raise OSError in
  match session_file st with
  | Some sd =>
      let elapsed := td_seconds (now - last_activity sd) in
      if elapsed <? SESSION_TIMEOUT_SECONDS then Ok (session_id sd, st) else create
  | None => create
  end.

(** [_update_session_stats(log_entry)]: every [OSError] is caught and the
    state is left as it was. *)
Definition _update_session_stats (le : LogEntry) (st : State) : State :=
  let sd :=
    match session_file st with
    | Some sd => sd
    | None => mkSessionData (int_time (le_timestamp le)) None 0 0 0 0
    end in
  let sd' :=
    mkSessionData (session_id sd) (start_time sd) (le_timestamp le)
      (total_requests sd + 1) (total_tokens sd + le_actual_tokens le)
      (if le_success le then successful_requests sd + 1 else successful_requests sd) in
  if session_file_writable st then set_session_file sd' st else st.

(** [entry.actual_tokens or entry.estimated_tokens]. *)
Definition actual_or_estimated (e : UsageEntry) : Z :=
  match actual_tokens e with
  | Some a => if a =? 0 then estimated_tokens e else a
  | None => estimated_tokens e
  end.

(** [log_usage(entry)] at time [now]: the append to [usage.jsonl] is not
    guarded by any [try]. *)
Definition log_usage (now : Z) (entry : UsageEntry) (st : State) : result State :=
  let* (sid, st1) := _get_session_id now st in
  let log_entry :=
    mkLogEntry now (command entry) (estimated_tokens entry)
      (actual_or_estimated entry) (success entry) (duration entry)
      (error entry) sid in
  if usage_log_writable st1 then
    let old := match usage_log st1 with Some l => l | None => [] end in
    Ok (_update_session_stats log_entry (set_usage_log (old ++ [Line log_entry]) st1))
  else Raise OSError.

(** The dictionary returned by [get_usage_summary]; [None] marks a key the
    dictionary does not have. The float [success_rate] is left out. *)
Record Summary := mkSummary {
  s_total_requests : Z;
  s_total_tokens : Z;
  s_successful_requests : option Z;
  s_hours_analyzed : option Z
}.

(** The loop of [get_usage_summary]: (requests, tokens, successes). *)
Fixpoint summarize_lines (cutoff : Z) (ls : list LogLine) (acc : Z * Z * Z) : Z * Z * Z :=
  match ls with
  | [] => acc
  | Malformed :: rest => summarize_lines cutoff rest acc
  | Line e :: rest =>
      let '(r, t, s) := acc in
      if cutoff <=? le_timestamp e
      then summarize_lines cutoff rest
             (r + 1, t + le_actual_tokens e, if le_success e then s + 1 else s)
      else summarize_lines cutoff rest acc
  end.

(** [get_usage_summary(hours)] at time [now]. *)
Definition get_usage_summary (now hours : Z) (st : State) : Summary :=
  match usage_log st with
  | None => mkSummary 0 0 None None
  | Some ls =>
      let cutoff := now - hours * 3600 * SECOND in
      let '(r, t, s) := summarize_lines cutoff ls (0, 0, 0) in
      mkSummary r t (Some s) (Some hours)
  end.

(** The session id of the last line of [usage.jsonl]. *)
Definition last_session_id (st : State) : option Z :=
  match usage_log st with
  | Some l => match last l Malformed with Line e => Some (le_session_id e) | Malformed => None end
  | None => None
  end.

(** The id [_get_session_id] hands out at [now]. *)
Definition chosen_session_id (now : Z) (st : State) : Z :=
  match session_file st with
  | Some sd =>
      if td_seconds (now - last_activity sd) <? SESSION_TIMEOUT_SECONDS
      then session_id sd else int_time now
  | None => int_time now
  end.

(** The number of entries with [success = true]. *)
Definition count_logger_successes (es : list LogEntry) : Z :=
  Z.of_nat (List.length (filter le_success es)).

(** Whether a line belongs to session [sid]. *)
Definition in_session (sid : Z) (l : LogLine) : bool :=
  match l with Line e => le_session_id e =? sid | Malformed => false end.

(** The lines of [usage.jsonl] (empty when there is no file). *)
Definition log_lines (st : State) : list LogLine :=
  match usage_log st with Some l => l | None => [] end.

(** Python's [l[start:]] for an int [start]: a negative start counts from
    the end, and both are clamped to the list. *)
Definition py_slice_from {A} (start : Z) (l : list A) : list A :=
  let n := Z.of_nat (List.length l) in
  let s := if start <? 0 then Z.max 0 (start + n) else Z.min start n in
  skipn (Z.to_nat s) l.

(** [not entry.get("success", True) and entry.get("error")]: a failed
    entry with a non-empty error string. *)
Definition is_error_entry (e : LogEntry) : bool :=
  negb (le_success e) &&
  match le_error e with Some msg => negb (String.eqb msg "") | None => false end.

Fixpoint error_entries (ls : list LogLine) : list LogEntry :=
  match ls with
  | [] => []
  | Malformed :: rest => error_entries rest
  | Line e :: rest => if is_error_entry e then e :: error_entries rest else error_entries rest
  end.

(** [get_recent_errors(count)]. *)
Definition get_recent_errors (count : Z) (st : State) : list LogEntry :=
  match usage_log st with
  | None => []
  | Some ls => py_slice_from (- count) (error_entries ls)
  end.

(** The sum of [f e] over the entries of session [sid]. *)
Fixpoint session_sum (f : LogEntry -> Z) (sid : Z) (ls : list LogLine) : Z :=
  match ls with
  | [] => 0
  | Line e :: rest => (if le_session_id e =? sid then f e else 0) + session_sum f sid rest
  | Malformed :: rest => session_sum f sid rest
  end.

(** The files of [self.log_dir] agree with each other at time [t]: every
    logged entry was written at a time [<= t] within or after the second
    its session id names, and [current_session.json] (written last at [t])
    holds the counters of the entries of its session. *)
Definition session_consistent (t : Z) (st : State) : Prop :=
  0 <= t /\
  (forall e, In (Line e) (log_lines st) ->
     le_session_id e * SECOND <= le_timestamp e <= t) /\
  match session_file st with
  | None => forall e, ~ In (Line e) (log_lines st)
  | Some sd =>
      last_activity sd = t /\ session_id sd * SECOND <= t /\
      total_requests sd = session_sum (fun _ => 1) (session_id sd) (log_lines st) /\
      total_tokens sd = session_sum le_actual_tokens (session_id sd) (log_lines st) /\
      successful_requests sd
      = session_sum (fun e => if le_success e then 1 else 0) (session_id sd) (log_lines st)
  end.

(** The entries of the lines that parse. *)
Fixpoint line_entries (ls : list LogLine) : list LogEntry :=
  match ls with
  | [] => []
  | Line e :: rest => e :: line_entries rest
  | Malformed :: rest => line_entries rest
  end.

Definition sum_actual_tokens (es : list LogEntry) : Z :=
  fold_right (fun e acc => le_actual_tokens e + acc) 0 es.

End UsageLogger.

(* ------------------------------------------------------------------ *)
(** ** delegation_executor.py *)

Module Delegator.

(** Decimal rendering of an int, as an f-string prints it. *)
Fixpoint digits_aux (fuel : nat) (n : Z) (acc : string) : string :=
  match fuel with
  | O => acc
  | S f =>
      let acc' := String (Ascii.ascii_of_nat (48 + Z.to_nat (n mod 10))) acc in
      if n / 10 =? 0 then acc' else digits_aux f (n / 10) acc'
  end.

Definition string_of_Z (n : Z) : string :=
  if n <? 0 then String.append "-" (digits_aux (S (Z.to_nat (Z.log2 (- n)))) (- n) "")
  else digits_aux (S (Z.to_nat (Z.log2 n))) n "".

(** The [ServiceConfig] dataclass. *)
Record ServiceConfig := mkServiceConfig {
  name : string;
  sc_command : string;
  auth_method : string;
  auth_env_var : option string;
  quota_limits : list (string * Z)
}.

(** [Delegator.SERVICES] as the class defines it. *)
Definition SERVICES : list (string * ServiceConfig) :=
  [("gemini", mkServiceConfig "gemini" "gemini" "api_key" (Some "GEMINI_API_KEY")
       [("requests_per_minute", 60); ("requests_per_day", 1000);
        ("tokens_per_day", 1000000)]);
   ("qwen", mkServiceConfig "qwen" "qwen" "cli" None
       [("requests_per_minute", 120); ("requests_per_day", 2000);
        ("tokens_per_day", 2000000)])].

(** [self.SERVICES[name]]; [None] is the [KeyError]. *)
Fixpoint lookup_service (services : list (string * ServiceConfig)) (n : string)
    : option ServiceConfig :=
  match services with
  | [] => None
  | (k, v) :: rest => if String.eqb k n then Some v else lookup_service rest n
  end.

(** What a path names on disk. A regular file carries the result of
    [stat()] ([None]: it raises [OSError]); a directory carries the regular
    files [rglob("*")] yields below it, as (suffix, [stat()] result). *)
Inductive FsEntry :=
  | FsFile (size : option Z)
  | FsDir (files : list (string * option Z))
  | FsMissing.

Definition FileSystem := string -> FsEntry.

(** The suffixes [estimate_tokens] counts. *)
Definition counted_suffix (suffix : string) : bool :=
  existsb (String.eqb suffix) [".py"; ".js"; ".ts"; ".rs"; ".md"; ".txt"].

(** The [rglob] loop of [estimate_tokens]: an [OSError] from [stat()]
    leaves the loop, keeping what was already added. *)
Fixpoint add_dir_files (files : list (string * option Z)) (total : Z) : Z :=
  match files with
  | [] => total
  | (suffix, st) :: rest =>
      if counted_suffix suffix then
        match st with
        | Some sz => add_dir_files rest (total + sz)
        | None => total
        end
      else add_dir_files rest total
  end.

Definition add_path (fs : FileSystem) (total : Z) (file_path : string) : Z :=
  match fs file_path with
  | FsFile (Some sz) => total + sz
  | FsFile None => total
  | FsDir files => add_dir_files files total
  | FsMissing => total
  end.

(** [estimate_tokens(files, prompt)]; [len(prompt)] is the length of the
    string (exact for ASCII prompts). *)
Definition estimate_tokens (fs : FileSystem) (files : list string) (prompt : string) : Z :=
  let total_chars := fold_left (add_path fs) files (Z.of_nat (String.length prompt)) in
  total_chars / 4.

(** The [options] dictionary: its three recognised keys; [temperature] is
    already [str(options["temperature"])]. *)
Record Options := mkOptions {
  opt_model : option string;
  opt_output_format : option string;
  opt_temperature : option string
}.

Definition opt_args (flag : string) (v : option string) : list string :=
  match v with Some x => [flag; x] | None => [] end.

(** The [@path] reference [build_command] adds for a path, if any. *)
Definition file_ref (fs : FileSystem) (file_path : string) : list string :=
  match fs file_path with
  | FsFile _ => [String.append "@" file_path]
  | FsDir _ => [String.append "@" (String.append file_path "/**/*")]
  | FsMissing => []
  end.

(** [build_command(service_name, prompt, files, options)]. *)
Definition build_command (services : list (string * ServiceConfig)) (fs : FileSystem)
    (service_name prompt : string) (files : list string) (options : Options)
    : option (list string) :=
  match lookup_service services service_name with
  | None => None
  | Some service =>
      let fmt_flag :=
        if String.eqb service_name "gemini" then opt_args "--output-format" (opt_output_format options)
        else if String.eqb service_name "qwen" then opt_args "--format" (opt_output_format options)
        else [] in
      let file_refs := flat_map (file_ref fs) files in
      let full_prompt :=
        match file_refs with
        | [] => prompt
        | _ => String.append (String.concat " " file_refs) (String.append " " prompt)
        end in
      Some ([sc_command service] ++ opt_args "--model" (opt_model options) ++ fmt_flag
            ++ opt_args "--temperature" (opt_temperature options) ++ ["-p"; full_prompt])
  end.

(** The [ExecutionResult] dataclass; [duration] is kept abstract as a [Z]. *)
Record ExecutionResult := mkExecutionResult {
  success : bool;
  stdout : string;
  stderr : string;
  exit_code : Z;
  duration : Z;
  tokens_used : option Z;
  service : option string
}.

(** How [subprocess.run] ends. *)
Inductive RunOutcome :=
  | Completed (returncode : Z) (out err : string)
  | TimeoutExpired
  | RaisedException (msg : string).

(** One JSON line of the delegator's [usage.jsonl]. *)
Record DLogEntry := mkDLogEntry {
  d_timestamp : Z;
  d_service : string;
  d_command : string;
  d_success : bool;
  d_duration : Z;
  d_tokens_used : option Z;
  d_exit_code : Z;
  d_error : option string
}.

(** A line of the delegator's [usage.jsonl]: a complete entry; a line
    skipped whole ([JSONDecodeError], or no [timestamp]: [KeyError]); an
    entry with a timestamp but no [success] key; an entry with a timestamp
    and a [success] value but no [service] key. In the window, the last
    two raise their [KeyError] after [total_requests] (and, for the last,
    [successful_requests]) was incremented. *)
Inductive DLogLine :=
  | DLine (e : DLogEntry)
  | DMalformed
  | DNoSuccess (ts : Z)
  | DNoService (ts : Z) (succ : bool).

(** The delegator's [usage.jsonl] and whether appending to it raises. *)
Record DState := mkDState {
  d_usage_log : option (list DLogLine);
  d_usage_log_writable : bool
}.

(** [log_usage(service_name, command, result)] at time [now]: an
    exception of the write is caught and only printed. *)
Definition log_usage (now : Z) (service_name : string) (command : list string)
    (r : ExecutionResult) (st : DState) : DState :=
  let log_entry :=
    mkDLogEntry now service_name (String.concat " " command) (success r)
      (duration r) (tokens_used r) (exit_code r)
      (if success r then None else Some (stderr r)) in
  if d_usage_log_writable st then
    let old := match d_usage_log st with Some l => l | None => [] end in
    mkDState (Some (old ++ [DLine log_entry])) (d_usage_log_writable st)
  else st.

(** [execute(service_name, prompt, files, options, timeout)]: [outcome]
    is how the child process ends, [dur] the measured duration and [now]
    the time [log_usage] stamps. [None] is the [KeyError] [build_command]
    raises, outside the [try], for an unknown service. *)
Definition execute (services : list (string * ServiceConfig)) (fs : FileSystem)
    (service_name prompt : string) (files : list string) (options : Options)
    (timeout : Z) (outcome : RunOutcome) (dur now : Z) (st : DState)
    : option (ExecutionResult * DState) :=
  match build_command services fs service_name prompt files options with
  | None => None
  | Some command =>
      match outcome with
      | Completed rc out err =>
          let tokens := estimate_tokens fs files prompt in
          let execution_result :=
            mkExecutionResult (rc =? 0) out err rc dur (Some tokens) (Some service_name) in
          Some (execution_result, log_usage now service_name command execution_result st)
      | TimeoutExpired =>
          Some (mkExecutionResult false ""
                  (String.append "Command timed out after "
                     (String.append (string_of_Z timeout) " seconds"))
                  124 dur None (Some service_name), st)
      | RaisedException msg =>
          Some (mkExecutionResult false "" msg 1 dur None (Some service_name), st)
      end
  end.

(** Per-service statistics of [get_usage_summary] ([_init_service_stats]). *)
Record ServiceStats := mkServiceStats {
  ss_requests : Z;
  ss_successful : Z;
  ss_tokens_used : Z;
  ss_total_duration : Z
}.

(** The [services] dictionary, in insertion order. *)
Fixpoint update_stats (svcs : list (string * ServiceStats)) (e : DLogEntry) (tok : Z)
    : list (string * ServiceStats) :=
  match svcs with
  | [] => [(d_service e, mkServiceStats 1 (if d_success e then 1 else 0) tok (d_duration e))]
  | (k, s) :: rest =>
      if String.eqb k (d_service e)
      then (k, mkServiceStats (ss_requests s + 1)
                 (if d_success e then ss_successful s + 1 else ss_successful s)
                 (ss_tokens_used s + tok) (ss_total_duration s + d_duration e)) :: rest
      else (k, s) :: update_stats rest e tok
  end.

(** The dictionary [get_usage_summary] returns; [None] marks an absent key;
    the float rates are left out. *)
Record DSummary := mkDSummary {
  ds_total_requests : Z;
  ds_successful_requests : option Z;
  ds_services : list (string * ServiceStats)
}.

(** The loop of [get_usage_summary]. [_update_service_stats] adding a
    JSON [null] [tokens_used] raises [TypeError], which nothing catches:
    [None]. *)
Fixpoint summarize_lines (cutoff : Z) (ls : list DLogLine) (acc : DSummary)
    : option DSummary :=
  match ls with
  | [] => Some acc
  | DMalformed :: rest => summarize_lines cutoff rest acc
  | DLine e :: rest =>
      if cutoff <=? d_timestamp e then
        match d_tokens_used e with
        | None => None
        | Some tok =>
            let succ := match ds_successful_requests acc with Some s => s | None => 0 end in
            summarize_lines cutoff rest
              (mkDSummary (ds_total_requests acc + 1)
                 (Some (if d_success e then succ + 1 else succ))
                 (update_stats (ds_services acc) e tok))
        end
      else summarize_lines cutoff rest acc
  | DNoSuccess ts :: rest =>
      if cutoff <=? ts then
        summarize_lines cutoff rest
          (mkDSummary (ds_total_requests acc + 1) (ds_successful_requests acc) (ds_services acc))
      else summarize_lines cutoff rest acc
  | DNoService ts succ :: rest =>
      if cutoff <=? ts then
        let s := match ds_successful_requests acc with Some s => s | None => 0 end in
        summarize_lines cutoff rest
          (mkDSummary (ds_total_requests acc + 1)
             (Some (if succ then s + 1 else s)) (ds_services acc))
      else summarize_lines cutoff rest acc
  end.

(** [get_usage_summary(days)] at time [now]. *)
Definition get_usage_summary (now days : Z) (st : DState) : option DSummary :=
  match d_usage_log st with
  | None => Some (mkDSummary 0 None [])
  | Some ls =>
      let cutoff := now - days * 24 * 60 * 60 * SECOND in
      summarize_lines cutoff ls (mkDSummary 0 (Some 0) [])
  end.

(** How a probe [subprocess.run] of [verify_service] ends: an exit code,
    [FileNotFoundError], [TimeoutExpired], or another [OSError] (such as
    [PermissionError]). *)
Inductive Probe :=
  | Exited (rc : Z)
  | NotFound
  | ProbeTimeout
  | ProbeOSError.

(** [verify_service(service_name)]: [probe argv] is how running [argv]
    ends, [getenv] the environment. [None] is an exception of the version
    probe that its [except] clause does not list, which propagates. *)
Definition verify_service (services : list (string * ServiceConfig))
    (probe : list string -> Probe) (getenv : string -> option string)
    (service_name : string) : option (bool * list string) :=
  match lookup_service services service_name with
  | None => Some (false, [String.append "Unknown service: " service_name])
  | Some svc =>
      let cmd := sc_command svc in
      let version_issues :=
        match probe [cmd; "--version"] with
        | Exited 0 => Some []
        | Exited _ | NotFound | ProbeTimeout =>
            Some [String.append "Command '" (String.append cmd "' not found or not working")]
        | ProbeOSError => None
        end in
      match version_issues with
      | None => None
      | Some vi =>
          let env_var_set :=
            match auth_env_var svc with Some v => negb (String.eqb v "") | None => false end in
          let auth_issues :=
            if String.eqb (auth_method svc) "api_key" && env_var_set then
              match auth_env_var svc with
              | Some v =>
                  match getenv v with
                  | Some x => if String.eqb x "" then
                                [String.append "Environment variable " (String.append v " not set")]
                              else []
                  | None => [String.append "Environment variable " (String.append v " not set")]
                  end
              | None => []
              end
            else if String.eqb (auth_method svc) "cli" then
              match probe [cmd; "auth"; "status"] with
              | Exited 0 => []
              | Exited _ => ["Service not authenticated"]
              | NotFound | ProbeTimeout | ProbeOSError => ["Could not verify authentication status"]
              end
            else [] in
          let issues := vi ++ auth_issues in
          Some (Nat.eqb (List.length issues) 0, issues)
      end
  end.

(** The truthiness of the [requirements] keys [smart_delegate] reads. *)
Record Requirements := mkRequirements {
  large_context : bool;
  gemini_available : bool;
  code_execution : bool;
  qwen_available : bool;
  fast_response : bool
}.

(** How the service selection of [smart_delegate] ends. *)
Inductive Selection :=
  | Selected (service_name : string)
  | NoServiceAvailable   (* RuntimeError("No delegation services available") *)
  | VerifyRaised.        (* an exception of [verify_service] propagates *)

(** The service selection of [smart_delegate]. *)
Definition select_service (services : list (string * ServiceConfig))
    (probe : list string -> Probe) (getenv : string -> option string)
    (req : Requirements) : Selection :=
  if large_context req && gemini_available req then Selected "gemini"
  else if code_execution req && qwen_available req then Selected "qwen"
  else if fast_response req then Selected "gemini"
  else
    match verify_service services probe getenv "gemini" with
    | None => VerifyRaised
    | Some (true, _) => Selected "gemini"
    | Some (false, _) =>
        match verify_service services probe getenv "qwen" with
        | None => VerifyRaised
        | Some (true, _) => Selected "qwen"
        | Some (false, _) => NoServiceAvailable
        end
    end.

(** The [options] [smart_delegate] passes to [execute]. *)
Definition smart_delegate_options (service : string) (req : Requirements) : Options :=
  if large_context req then
    mkOptions (Some (if String.eqb service "gemini" then "gemini-2.0-pro-exp" else "qwen-max"))
      None None
  else if fast_response req then
    mkOptions (Some (if String.eqb service "gemini" then "gemini-2.0-flash-exp" else "qwen-turbo"))
      None None
  else mkOptions None None None.

(** One entry of [config.json]'s ["services"]: the keys it has among the
    [ServiceConfig] fields, and whether it has any other key. A JSON
    [null] [quota_limits] is the empty limit table. *)
Record ConfigEntry := mkConfigEntry {
  ce_name : option string;
  ce_command : option string;
  ce_auth_method : option string;
  ce_auth_env_var : option (option string);
  ce_quota_limits : option (list (string * Z));
  ce_unknown_key : bool
}.

(** [config.json]: absent, unreadable ([json.load] or [.get] raising,
    caught by [except Exception]), or its ["services"] object in order. *)
Inductive ConfigFile :=
  | NoConfig
  | CorruptConfig
  | ConfigServices (entries : list (string * ConfigEntry)).

Definition get_or {A} (o : option A) (d : A) : A :=
  match o with Some x => x | None => d end.

(** [ServiceConfig] called with the entry as keyword arguments; [None] is the [TypeError] of a
    missing required field or an unexpected key. *)
Definition new_service_config (c : ConfigEntry) : option ServiceConfig :=
  if ce_unknown_key c then None
  else
    match ce_name c, ce_command c, ce_auth_method c with
    | Some n, Some cmd, Some am =>
        Some (mkServiceConfig n cmd am (get_or (ce_auth_env_var c) None)
                (get_or (ce_quota_limits c) []))
    | _, _, _ => None
    end.

(** [self.SERVICES[key] = sc]: in place when the key exists, else at the
    end. *)
Fixpoint set_service (services : list (string * ServiceConfig)) (key : string)
    (sc : ServiceConfig) : list (string * ServiceConfig) :=
  match services with
  | [] => [(key, sc)]
  | (k, v) :: rest =>
      if String.eqb k key then (k, sc) :: rest else (k, v) :: set_service rest key sc
  end.

(** The merge loop of [load_configurations]; the flag is [false] when a
    [TypeError] ended it, keeping the entries merged before. *)
Fixpoint merge_services (services : list (string * ServiceConfig))
    (entries : list (string * ConfigEntry)) : list (string * ServiceConfig) * bool :=
  match entries with
  | [] => (services, true)
  | (key, c) :: rest =>
      match lookup_service services key with
      | Some current =>
          let updated :=
            mkServiceConfig (name current) (get_or (ce_command c) (sc_command current))
              (get_or (ce_auth_method c) (auth_method current))
              (get_or (ce_auth_env_var c) (auth_env_var current))
              (get_or (ce_quota_limits c) (quota_limits current)) in
          merge_services (set_service services key updated) rest
      | None =>
          match new_service_config c with
          | Some sc => merge_services (set_service services key sc) rest
          | None => (services, false)
          end
      end
  end.

(** [load_configurations()]: the resulting [SERVICES]. *)
Definition load_configurations (services : list (string * ServiceConfig))
    (cfg : ConfigFile) : list (string * ServiceConfig) :=
  match cfg with
  | NoConfig | CorruptConfig => services
  | ConfigServices entries => fst (merge_services services entries)
  end.

(** The per-service request and success counts of a summary, added up. *)
Definition sum_requests (svcs : list (string * ServiceStats)) : Z :=
  fold_right (fun p acc => ss_requests (snd p) + acc) 0 svcs.

Definition sum_successful (svcs : list (string * ServiceStats)) : Z :=
  fold_right (fun p acc => ss_successful (snd p) + acc) 0 svcs.

(** Every size [stat()] reports on [fs] is nonnegative. *)
Definition sizes_nonneg (fs : FileSystem) : Prop :=
  (forall p sz, fs p = FsFile (Some sz) -> 0 <= sz) /\
  (forall p files suffix sz, fs p = FsDir files -> In (suffix, Some sz) files -> 0 <= sz).

(** The window lines counted in [total_requests] and in
    [successful_requests] whose [KeyError] kept them out of ["services"]. *)
Fixpoint partial_requests (cutoff : Z) (ls : list DLogLine) : Z :=
  match ls with
  | [] => 0
  | (DNoSuccess ts | DNoService ts _) :: rest =>
      (if cutoff <=? ts then 1 else 0) + partial_requests cutoff rest
  | _ :: rest => partial_requests cutoff rest
  end.

Fixpoint partial_successes (cutoff : Z) (ls : list DLogLine) : Z :=
  match ls with
  | [] => 0
  | DNoService ts true :: rest =>
      (if cutoff <=? ts then 1 else 0) + partial_successes cutoff rest
  | _ :: rest => partial_successes cutoff rest
  end.

(** Whether the requirements route to a service without verifying one. *)
Definition routed (req : Requirements) : bool :=
  large_context req && gemini_available req || code_execution req && qwen_available req
  || fast_response req.

End Delegator.

(* ================================================================== *)
(** * Properties *)

(* ------------------------------------------------------------------ *)
(** ** GeminiQuotaTracker *)

(** Case analysis on the boolean comparisons of [Z] in the goal. *)
Ltac zcase :=
  repeat match goal with
  | |- context [?a >? ?b] => rewrite (Z.gtb_ltb a b)
  | |- context [?a >=? ?b] => rewrite (Z.geb_leb a b)
  | |- context [?a <? ?b] => destruct (Z.ltb_spec a b)
  | |- context [?a <=? ?b] => destruct (Z.leb_spec a b)
  | |- context [?a =? ?b] => destruct (Z.eqb_spec a b)
  end.

Module QuotaTrackerFacts.
Import QuotaTracker.

Example default_limits_rpm : requests_per_minute DEFAULT_LIMITS = 60.
Proof. reflexivity. Qed.

Lemma td_days_ge_1 (x : Z) : 1 <= td_days x <-> DAY <= x.
Proof.
  unfold td_days, DAY, SECOND. split; intro H.
  - destruct (Z_lt_le_dec x (86400 * 1000000)) as [Hlt|Hle]; [|exact Hle].
    assert (x / (86400 * 1000000) < 1) by (apply Z.div_lt_upper_bound; lia). lia.
  - apply Z.div_le_lower_bound; lia.
Qed.

Lemma filter_recent_app (now : Z) (rs : list Request) (r : Request) :
  timestamp r = now ->
  filter (fun req => now - MINUTE <? timestamp req) (rs ++ [r])
  = filter (fun req => now - MINUTE <? timestamp req) rs ++ [r].
Proof.
  intros Ht. rewrite filter_app. simpl. rewrite Ht.
  replace (now - MINUTE <? now) with true; [reflexivity|].
  symmetry. apply Z.ltb_lt. unfold MINUTE, SECOND. lia.
Qed.

(** C2 (corrected, counterexample). With the default limits
    ([requests_per_minute = 60]) and 59 requests in the last minute,
    [can_handle_task 0] refuses with the rate-limit reason: 59 recent
    requests are not allowed. *)
Lemma can_handle_59_recent_denied :
  let data := mkUsageData (repeat (mkRequest 0 0 true) 59) 0 (Some 0) in
  requests_last_minute (get_current_usage 0 data) = 59 /\
  can_handle_task DEFAULT_LIMITS (get_current_usage 0 data) 0
  = (false, ["Request rate limit reached - wait 1 minute"]) /\
  fst (can_handle_task DEFAULT_LIMITS (get_current_usage 0 data) 0) <> true.
Proof. vm_compute. split; [reflexivity|split; [reflexivity|discriminate]]. Qed.

(** C2 (corrected). With [requests_per_minute = 60], [can_handle_task]
    refuses with "Request rate limit reached - wait 1 minute" whenever at
    least 59 requests fall in the last minute (59 and 60 alike: the deny
    condition is [requests_last_minute >= requests_per_minute - 1]); with
    58 recent requests the rate check passes and the request is allowed
    exactly when both token budgets fit. *)
Theorem can_handle_rate_limit_at_59 (lim : Limits) (now : Z) (data : UsageData)
    (t : Z) (Hrpm : requests_per_minute lim = 60) :
  let u := get_current_usage now data in
  (59 <= requests_last_minute u ->
   can_handle_task lim u t = (false, ["Request rate limit reached - wait 1 minute"])) /\
  (requests_last_minute u = 58 ->
   (fst (can_handle_task lim u t) = true <->
    tokens_last_minute u + t <= tokens_per_minute lim /\
    u_daily_tokens u + t <= tokens_per_day lim)).
Proof.
  intro u. clearbody u. unfold can_handle_task. rewrite Hrpm.
  split; intro H; zcase; simpl; try lia; split; intro; try discriminate; try lia; reflexivity.
Qed.

Lemma can_handle_rate_limit_at_59_witness :
  let d59 := mkUsageData (repeat (mkRequest 0 0 true) 59) 0 (Some 0) in
  let d58 := mkUsageData (repeat (mkRequest 0 100 true) 58) 0 (Some 0) in
  requests_per_minute DEFAULT_LIMITS = 60 /\
  requests_last_minute (get_current_usage 0 d59) = 59 /\
  can_handle_task DEFAULT_LIMITS (get_current_usage 0 d59) 500
  = (false, ["Request rate limit reached - wait 1 minute"]) /\
  requests_last_minute (get_current_usage 0 d58) = 58 /\
  (fst (can_handle_task DEFAULT_LIMITS (get_current_usage 0 d58) 500) = true <->
   tokens_last_minute (get_current_usage 0 d58) + 500 <= tokens_per_minute DEFAULT_LIMITS /\
   u_daily_tokens (get_current_usage 0 d58) + 500 <= tokens_per_day DEFAULT_LIMITS) /\
  fst (can_handle_task DEFAULT_LIMITS (get_current_usage 0 d58) 500) = true.
Proof.
  intros d59 d58.
  assert (H59 : requests_last_minute (get_current_usage 0 d59) = 59) by (vm_compute; reflexivity).
  assert (H58 : requests_last_minute (get_current_usage 0 d58) = 58) by (vm_compute; reflexivity).
  split; [reflexivity|]. split; [exact H59|]. split.
  { apply (proj1 (can_handle_rate_limit_at_59 DEFAULT_LIMITS 0 d59 500 eq_refl)).
    rewrite H59. lia. }
  split; [exact H58|]. split.
  - exact (proj2 (can_handle_rate_limit_at_59 DEFAULT_LIMITS 0 d58 500 eq_refl) H58).
  - vm_compute. reflexivity.
Defined.

(** The status is the one of the last branch taken. *)
Lemma get_quota_status_daily_critical (lim : Limits) (u : Usage) :
  quota_divisions_raise lim u = false ->
  over_critical (u_daily_tokens u) (tokens_per_day lim)
  || over_critical (requests_today u) (requests_per_day lim) = true ->
  exists ws, get_quota_status lim u
             = Some ("[CRITICAL] Daily Quota Exhausted", ws ++ [DailyQuotaCritical])
   /\ (over_warn (u_daily_tokens u) (tokens_per_day lim) = true ->
       In (DailyTokensWarning (u_daily_tokens u) (tokens_per_day lim)) ws).
Proof.
  intros Hnr Hc. unfold get_quota_status. rewrite Hnr. cbv zeta.
  rewrite Hc.
  destruct (over_warn (requests_last_minute u) (requests_per_minute lim));
  destruct (over_warn (tokens_last_minute u) (tokens_per_minute lim));
  try destruct (String.eqb _ _);
  destruct (over_warn (u_daily_tokens u) (tokens_per_day lim));
  destruct (over_warn (requests_today u) (requests_per_day lim));
  destruct (over_critical (requests_last_minute u) (requests_per_minute lim)
            || over_critical (tokens_last_minute u) (tokens_per_minute lim));
  eexists; (split; [reflexivity|]); intro Hw; try discriminate;
  repeat (rewrite in_app_iff); simpl; tauto.
Qed.

(** A positive limit and a usage figure below [2^970] in size: the
    division cannot raise. *)
Lemma truediv_in_range (x l : Z) :
  0 < l -> Z.abs x < 2 ^ 970 -> truediv_raises x l = false.
Proof.
  intros Hl Hx. unfold truediv_raises.
  assert (Hl0 : (l =? 0) = false) by (apply Z.eqb_neq; lia).
  rewrite Hl0, orb_false_l. apply Z.leb_gt.
  assert (HK : 0 < 2 ^ 970) by (apply Z.pow_pos_nonneg; lia).
  assert (E : 2 ^ 54 - 1 = 18014398509481983) by reflexivity. rewrite E.
  rewrite (Z.abs_eq l) by lia. set (K := 2 ^ 970) in *. clearbody K.
  assert (K <= K * l) by nia.
  rewrite <- Z.mul_assoc. lia.
Qed.

(** Below a limit of [2^52] the double comparison agrees with the exact
    one: a ratio above 0.95 is above the midpoint. *)
Lemma over_critical_of_exact (x l : Z) :
  0 < l < 2 ^ 52 -> ratio_gt x l 19 20 = true -> over_critical x l = true.
Proof.
  intros Hl Hr. unfold over_critical, float_ratio_gt, ratio_gt, CRITICAL_THRESHOLD_M in *.
  assert (Hp : (0 <? l) = true) by (apply Z.ltb_lt; lia). rewrite Hp in *.
  apply Z.ltb_lt in Hr.
  replace (2 ^ 52) with 4503599627370496 in Hl by reflexivity.
  replace (2 ^ 54) with 18014398509481984 by reflexivity.
  apply orb_true_intro. left. apply Z.ltb_lt. lia.
Qed.

Lemma no_raise_in_range (lim : Limits) (u : Usage) :
  0 < requests_per_minute lim -> 0 < tokens_per_minute lim ->
  0 < tokens_per_day lim -> 0 < requests_per_day lim ->
  usage_in_range u -> quota_divisions_raise lim u = false.
Proof.
  intros H1 H2 H3 H4 [R1 [R2 [R3 R4]]]. unfold quota_divisions_raise.
  rewrite !truediv_in_range by assumption. reflexivity.
Qed.

(** C6 (corrected, counterexample). With [tokens_per_day = 10^17] and
    [daily_tokens = 95 * 10^15 + 1] the ratio is above 0.95, but the
    double [daily_tokens / tokens_per_day] is 0.95 itself: the status is
    only "[WARNING] Daily Token Warning". *)
Lemma quota_status_daily_ratio_rounded :
  let lim := mkLimits 60 1000 32000 (10 ^ 17) in
  let data := mkUsageData [] (95 * 10 ^ 15 + 1) (Some 0) in
  ratio_gt (daily_tokens data) (tokens_per_day lim) 19 20 = true /\
  get_quota_status lim (get_current_usage 0 data)
  = Some ("[WARNING] Daily Token Warning", [DailyTokensWarning (95 * 10 ^ 15 + 1) (10 ^ 17)]).
Proof. split; vm_compute; reflexivity. Qed.

(** C6 (corrected). With [tokens_per_day = 1000000], the other limits
    positive and [daily_tokens = 950001], [get_quota_status] returns
    "[CRITICAL] Daily Quota Exhausted" and its warnings hold the
    daily-token message for 950001/1000000, a ratio of at least 0.95. In
    general, when every limit is positive, both daily limits are below
    [2^52] and no usage figure reaches [2^970] in size, a daily ratio
    strictly above 0.95 gives that critical status with the "Daily quota
    nearly exhausted" message. *)
Theorem quota_status_daily_critical (lim : Limits) (now : Z) (data : UsageData) :
  0 < requests_per_minute lim -> 0 < tokens_per_minute lim ->
  0 < tokens_per_day lim -> 0 < requests_per_day lim ->
  tokens_per_day lim < 2 ^ 52 -> requests_per_day lim < 2 ^ 52 ->
  usage_in_range (get_current_usage now data) ->
  (tokens_per_day lim = 1000000 -> daily_tokens data = 950001 ->
   exists ws, get_quota_status lim (get_current_usage now data)
              = Some ("[CRITICAL] Daily Quota Exhausted", ws)
     /\ In (DailyTokensWarning 950001 1000000) ws
     /\ 19 * 1000000 <= 20 * 950001) /\
  (ratio_gt (daily_tokens data) (tokens_per_day lim) 19 20
   || ratio_gt (requests_today (get_current_usage now data)) (requests_per_day lim) 19 20
   = true ->
   exists ws, get_quota_status lim (get_current_usage now data)
              = Some ("[CRITICAL] Daily Quota Exhausted", ws)
     /\ In DailyQuotaCritical ws).
Proof.
  intros H1 H2 H3 H4 H5 H6 Hr.
  assert (Hnr := no_raise_in_range lim _ H1 H2 H3 H4 Hr).
  split.
  - intros Htpd Hdt.
    destruct (get_quota_status_daily_critical lim (get_current_usage now data) Hnr)
      as [ws [Hs Hw]].
    + simpl. rewrite Htpd, Hdt. reflexivity.
    + exists (ws ++ [DailyQuotaCritical]). split; [exact Hs|]. split; [|lia].
      apply in_or_app. left. simpl in Hw. rewrite Htpd, Hdt in Hw.
      apply Hw. reflexivity.
  - intro Hc.
    destruct (get_quota_status_daily_critical lim (get_current_usage now data) Hnr)
      as [ws [Hs _]].
    + apply orb_true_iff in Hc. apply orb_true_iff. destruct Hc as [Hc|Hc].
      * left. apply over_critical_of_exact; [lia|exact Hc].
      * right. apply over_critical_of_exact; [lia|exact Hc].
    + exists (ws ++ [DailyQuotaCritical]). split; [exact Hs|].
      apply in_or_app. right. left. reflexivity.
Qed.

Lemma quota_status_daily_critical_witness :
  let data := mkUsageData [] 950001 None in
  0 < requests_per_minute DEFAULT_LIMITS /\ 0 < tokens_per_minute DEFAULT_LIMITS /\
  0 < tokens_per_day DEFAULT_LIMITS /\ 0 < requests_per_day DEFAULT_LIMITS /\
  tokens_per_day DEFAULT_LIMITS < 2 ^ 52 /\ requests_per_day DEFAULT_LIMITS < 2 ^ 52 /\
  usage_in_range (get_current_usage 0 data) /\
  ((tokens_per_day DEFAULT_LIMITS = 1000000 -> daily_tokens data = 950001 ->
    exists ws, get_quota_status DEFAULT_LIMITS (get_current_usage 0 data)
               = Some ("[CRITICAL] Daily Quota Exhausted", ws)
      /\ In (DailyTokensWarning 950001 1000000) ws
      /\ 19 * 1000000 <= 20 * 950001) /\
   (ratio_gt (daily_tokens data) (tokens_per_day DEFAULT_LIMITS) 19 20
    || ratio_gt (requests_today (get_current_usage 0 data))
         (requests_per_day DEFAULT_LIMITS) 19 20 = true ->
    exists ws, get_quota_status DEFAULT_LIMITS (get_current_usage 0 data)
               = Some ("[CRITICAL] Daily Quota Exhausted", ws)
      /\ In DailyQuotaCritical ws)).
Proof.
  intro data.
  assert (Hr : usage_in_range (get_current_usage 0 data))
    by (unfold usage_in_range; vm_compute; repeat split; reflexivity).
  split; [reflexivity|]. split; [reflexivity|]. split; [reflexivity|].
  split; [reflexivity|]. split; [reflexivity|]. split; [reflexivity|].
  split; [exact Hr|].
  apply (quota_status_daily_critical DEFAULT_LIMITS 0 data);
    solve [reflexivity | exact Hr].
Defined.

(** C7. [_cleanup_old_data] with a recorded [last_reset] resets
    [daily_tokens] to 0 and sets [last_reset] to now exactly when at least
    24 hours have elapsed since [last_reset], and otherwise leaves both
    unchanged; a second cleanup at the same instant resets nothing more. *)
Theorem cleanup_daily_reset (now lr : Z) (data : UsageData) :
  last_reset data = Some lr ->
  (DAY <= now - lr ->
   daily_tokens (_cleanup_old_data now data) = 0 /\
   last_reset (_cleanup_old_data now data) = Some now) /\
  (now - lr < DAY ->
   daily_tokens (_cleanup_old_data now data) = daily_tokens data /\
   last_reset (_cleanup_old_data now data) = Some lr) /\
  daily_tokens (_cleanup_old_data now (_cleanup_old_data now data))
  = daily_tokens (_cleanup_old_data now data) /\
  last_reset (_cleanup_old_data now (_cleanup_old_data now data))
  = last_reset (_cleanup_old_data now data).
Proof.
  intro Hlr.
  assert (Hd : forall x, (1 <=? td_days x) = true <-> DAY <= x)
    by (intro x; rewrite Z.leb_le; apply td_days_ge_1).
  assert (H0 : (1 <=? td_days (now - now)) = false).
  { apply not_true_is_false. rewrite Hd. unfold DAY, SECOND. lia. }
  set (reqs := filter (fun req => now - DAY <? timestamp req) (requests data)).
  destruct (1 <=? td_days (now - lr)) eqn:E.
  - assert (Hc : _cleanup_old_data now data = mkUsageData reqs 0 (Some now))
      by (unfold _cleanup_old_data; rewrite Hlr, E; reflexivity).
    apply Hd in E. rewrite Hc. unfold _cleanup_old_data. simpl. rewrite H0.
    split; [intros; split; reflexivity|]. split; [intro; lia|].
    split; reflexivity.
  - assert (Hc : _cleanup_old_data now data = mkUsageData reqs (daily_tokens data) (Some lr))
      by (unfold _cleanup_old_data; rewrite Hlr, E; reflexivity).
    assert (~ DAY <= now - lr) by (rewrite <- Hd; congruence).
    rewrite Hc. unfold _cleanup_old_data. simpl. rewrite E.
    split; [intro; lia|]. split; [intros; split; reflexivity|].
    split; reflexivity.
Qed.

Lemma cleanup_daily_reset_witness :
  let data := mkUsageData [] 500 (Some 0) in
  last_reset data = Some 0 /\
  (DAY <= DAY - 0 ->
   daily_tokens (_cleanup_old_data DAY data) = 0 /\
   last_reset (_cleanup_old_data DAY data) = Some DAY) /\
  (DAY - 0 < DAY ->
   daily_tokens (_cleanup_old_data DAY data) = daily_tokens data /\
   last_reset (_cleanup_old_data DAY data) = Some 0) /\
  daily_tokens (_cleanup_old_data DAY (_cleanup_old_data DAY data))
  = daily_tokens (_cleanup_old_data DAY data) /\
  last_reset (_cleanup_old_data DAY (_cleanup_old_data DAY data))
  = last_reset (_cleanup_old_data DAY data).
Proof.
  intro data. split; [reflexivity|].
  exact (cleanup_daily_reset DAY 0 data eq_refl).
Defined.

(** C8. Denial by [can_handle_task] is monotone in the token estimate:
    refused for [t1] implies refused for every [t2 >= t1]. *)
Theorem can_handle_denial_monotone (lim : Limits) (now : Z) (data : UsageData)
    (t1 t2 : Z) :
  t1 <= t2 ->
  fst (can_handle_task lim (get_current_usage now data) t1) = false ->
  fst (can_handle_task lim (get_current_usage now data) t2) = false.
Proof.
  intros Hle. set (u := get_current_usage now data). clearbody u.
  unfold can_handle_task. zcase; simpl; intro Hf; try reflexivity; try discriminate; lia.
Qed.

Lemma can_handle_denial_monotone_witness :
  let data := mkUsageData [] 999000 None in
  1000 <= 5000 /\
  fst (can_handle_task DEFAULT_LIMITS (get_current_usage 0 data) 1001) = false /\
  fst (can_handle_task DEFAULT_LIMITS (get_current_usage 0 data) 5000) = false.
Proof.
  intro data. split; [lia|]. split; [vm_compute; reflexivity|].
  apply (can_handle_denial_monotone DEFAULT_LIMITS 0 data 1001 5000);
    [lia | vm_compute; reflexivity].
Defined.

(** C9. [record_request] appends the request in both cases, so it counts
    once more in [requests_last_minute] and [requests_today]; a failed
    request leaves [daily_tokens] as it was, a successful one adds its
    estimate. *)
Theorem record_request_daily_tokens (now t : Z) (data : UsageData) :
  (forall s, requests (record_request now t s data)
             = requests data ++ [mkRequest now t s] /\
     requests_last_minute (get_current_usage now (record_request now t s data))
     = requests_last_minute (get_current_usage now data) + 1 /\
     requests_today (get_current_usage now (record_request now t s data))
     = requests_today (get_current_usage now data) + 1) /\
  daily_tokens (record_request now t false data) = daily_tokens data /\
  daily_tokens (record_request now t true data) = daily_tokens data + t.
Proof.
  split; [|split; reflexivity].
  intro s. split; [reflexivity|]. unfold get_current_usage, record_request. cbv zeta.
  cbn [requests].
  rewrite filter_recent_app by reflexivity.
  cbn [requests_last_minute requests_today]. rewrite !length_app. simpl. lia.
Qed.

End QuotaTrackerFacts.

(* ------------------------------------------------------------------ *)
(** ** GeminiUsageLogger *)

Module UsageLoggerFacts.
Import UsageLogger.

Lemma td_seconds_below_day (d : Z) :
  0 <= d < DAY -> td_seconds d = d / SECOND.
Proof.
  intros Hd. unfold td_seconds. apply Z.mod_small. split.
  - apply Z.div_pos; unfold SECOND; lia.
  - apply Z.div_lt_upper_bound; unfold DAY, SECOND in *; lia.
Qed.

Lemma int_time_nonneg (t : Z) : 0 <= t -> int_time t = t / SECOND.
Proof. intro Ht. unfold int_time. apply Z.quot_div_nonneg; unfold SECOND; lia. Qed.

(** What a successful [log_usage] leaves behind when the session file
    can be written: the new line carries the chosen id, and the session
    file records that id with [last_activity] the event's time. *)
Lemma log_usage_session (now : Z) (e : UsageEntry) (st st' : State) :
  session_file_writable st = true ->
  log_usage now e st = Ok st' ->
  last_session_id st' = Some (chosen_session_id now st) /\
  session_file_writable st' = true /\
  exists sd, session_file st' = Some sd /\
             session_id sd = chosen_session_id now st /\ last_activity sd = now.
Proof.
  intros Hw Hlog. unfold log_usage, _get_session_id, chosen_session_id in *.
  destruct (session_file st) as [sd|] eqn:Hsf;
  [destruct (td_seconds (now - last_activity sd) <? SESSION_TIMEOUT_SECONDS)|];
  rewrite ?Hw in Hlog; simpl in Hlog;
  destruct (usage_log_writable st) eqn:Hu; try discriminate;
  injection Hlog as <-; unfold _update_session_stats, last_session_id;
  simpl; rewrite ?Hsf, Hw; simpl; rewrite last_last, ?Hw;
  (split; [reflexivity|]); (split; [reflexivity|]); eexists; eauto.
Qed.

(** A raised [OSError] from the [usage.jsonl] append reaches the caller. *)
Lemma log_usage_unwritable_raises (now : Z) (e : UsageEntry) (st : State) :
  usage_log_writable st = false -> log_usage now e st = Raise OSError.
Proof.
  intros Hu. unfold log_usage, _get_session_id.
  destruct (session_file st);
  [destruct (td_seconds _ <? SESSION_TIMEOUT_SECONDS)|];
  destruct (session_file_writable st); simpl; rewrite ?Hu; reflexivity.
Qed.

(** C3 (corrected, counterexample). Two events exactly 3600 s apart, the
    first on an empty log directory at [t1 = 1000 s]: the gap does not
    exceed 3600 s, yet the second event opens the new session
    [session_4600] instead of joining [session_1000]. *)
Lemma session_gap_3600_splits :
  let e := mkUsageEntry "gemini -p hi" 10 None true None None in
  let t1 := 1000 * SECOND in
  let t2 := t1 + 3600 * SECOND in
  match log_usage t1 e (mkState None None true true) with
  | Ok st1 =>
      match log_usage t2 e st1 with
      | Ok st2 => last_session_id st1 = Some 1000 /\ last_session_id st2 = Some 4600 /\
                  last_session_id st2 <> last_session_id st1
      | Raise _ => False
      end
  | Raise _ => False
  end.
Proof. vm_compute. split; [reflexivity|split; [reflexivity|discriminate]]. Qed.

(** C3 (corrected). For two consecutive events whose gap is below one
    day (the session file writable, its id not later than the first
    event), the second event gets the first one's session id exactly when
    the gap is strictly below 3600 s; so 30 minutes apart they share it and
    61 minutes (or exactly 60) apart they do not. *)
Theorem session_continuity (st st1 st2 : State) (e1 e2 : UsageEntry) (t1 t2 : Z) :
  session_file_writable st = true ->
  0 <= t1 ->
  (forall sd, session_file st = Some sd -> session_id sd * SECOND <= t1) ->
  log_usage t1 e1 st = Ok st1 ->
  log_usage t2 e2 st1 = Ok st2 ->
  0 <= t2 - t1 < DAY ->
  (last_session_id st2 = last_session_id st1 <-> t2 - t1 < SESSION_TIMEOUT_SECONDS * SECOND).
Proof.
  intros Hw Ht1 Hsid H1 H2 Hgap.
  assert (HS : 0 < SECOND) by (unfold SECOND; lia).
  destruct (log_usage_session t1 e1 st st1 Hw H1) as [Hid1 [Hw1 [sd1 [Hsf1 [Hsd1 Hla1]]]]].
  destruct (log_usage_session t2 e2 st1 st2 Hw1 H2) as [Hid2 _].
  rewrite Hid1, Hid2. unfold chosen_session_id at 1. rewrite Hsf1, Hla1, Hsd1.
  rewrite td_seconds_below_day by lia.
  assert (Hs1 : chosen_session_id t1 st <= t1 / SECOND).
  { unfold chosen_session_id. destruct (session_file st) as [sd|] eqn:E.
    - destruct (_ <? _).
      + apply Z.div_le_lower_bound; [exact HS|].
        rewrite Z.mul_comm. apply Hsid. reflexivity.
      + rewrite int_time_nonneg; lia.
    - rewrite int_time_nonneg; lia. }
  unfold SESSION_TIMEOUT_SECONDS in *.
  destruct (Z.ltb_spec ((t2 - t1) / SECOND) 3600) as [Hlt|Hge].
  - split; [intros _|reflexivity].
    destruct (Z_lt_le_dec (t2 - t1) (3600 * SECOND)) as [|Hc]; [assumption|].
    assert (3600 <= (t2 - t1) / SECOND) by (apply Z.div_le_lower_bound; lia). lia.
  - assert (Hm : SECOND * ((t2 - t1) / SECOND) <= t2 - t1) by (apply Z.mul_div_le; lia).
    assert (Hg : 3600 * SECOND <= t2 - t1) by nia.
    split; [intro Heq|intro; lia].
    injection Heq as Heq. rewrite int_time_nonneg in Heq by lia.
    assert (Hmono : (t1 + 3600 * SECOND) / SECOND <= t2 / SECOND)
      by (apply Z.div_le_mono; lia).
    rewrite Z.div_add in Hmono by lia. lia.
Qed.

Lemma session_continuity_witness :
  let e := mkUsageEntry "gemini -p hi" 10 None true None None in
  let st := mkState None None true true in
  let t1 := 1000 * SECOND in
  let t2 := t1 + 1800 * SECOND in
  let st1 := match log_usage t1 e st with Ok s => s | Raise _ => st end in
  let st2 := match log_usage t2 e st1 with Ok s => s | Raise _ => st end in
  log_usage t1 e st = Ok st1 /\ log_usage t2 e st1 = Ok st2 /\
  (last_session_id st2 = last_session_id st1 <-> t2 - t1 < SESSION_TIMEOUT_SECONDS * SECOND).
Proof.
  intros e st t1 t2 st1 st2.
  assert (E1 : log_usage t1 e st = Ok st1) by (vm_compute; reflexivity).
  assert (E2 : log_usage t2 e st1 = Ok st2) by (vm_compute; reflexivity).
  split; [exact E1|]. split; [exact E2|].
  apply (session_continuity st st1 st2 e e t1 t2); try assumption.
  - reflexivity.
  - unfold t1, SECOND. lia.
  - intros sd Hsd. discriminate Hsd.
  - unfold t2, t1, DAY, SECOND. lia.
Defined.

(** C4 (code bug). The [GeminiUsageLogger.log_usage] append to
    [usage.jsonl] is not wrapped in a [try]: with a fresh session file and
    a [usage.jsonl] whose append raises [OSError], the call raises. *)
Theorem log_usage_write_error_escapes :
  log_usage (1000 * SECOND) (mkUsageEntry "gemini -p hi" 10 None true None None)
    (mkState (Some []) (Some (mkSessionData 999 (Some (999 * SECOND)) (999 * SECOND) 1 10 1))
       false true)
  = Raise OSError.
Proof. apply log_usage_unwritable_raises. reflexivity. Qed.

(** [summarize_lines] over entries that all fall in the window. *)
Lemma logger_summarize_in_window (cutoff : Z) (es : list LogEntry) (r t s : Z) :
  Forall (fun e => cutoff <= le_timestamp e) es ->
  summarize_lines cutoff (map Line es) (r, t, s)
  = (r + Z.of_nat (List.length es),
     t + fold_right (fun e acc => le_actual_tokens e + acc) 0 es,
     s + Z.of_nat (List.length (filter le_success es))).
Proof.
  revert r t s. induction es as [|e es IH]; intros r t s Hall; simpl.
  - rewrite !Z.add_0_r. reflexivity.
  - inversion Hall as [|? ? He Hrest]; subst.
    replace (cutoff <=? le_timestamp e) with true by (symmetry; apply Z.leb_le; exact He).
    rewrite IH by exact Hrest.
    destruct (le_success e); cbn [List.length filter fold_right];
    rewrite ?Nat2Z.inj_succ, !pair_equal_spec; repeat split; lia.
Qed.

End UsageLoggerFacts.

(* ------------------------------------------------------------------ *)
(** ** Delegator *)

Module DelegatorFacts.
Import Delegator.

Example estimate_tokens_missing_path :
  estimate_tokens (fun _ => FsMissing) ["missing/path"]
    "0123456789012345678901234567890123456789012345678901234567890123456789012345678901234567890123456789"
  = 25.
Proof. reflexivity. Qed.

(** The timeout branch leaves the usage log as it was. *)
Lemma execute_timeout_no_log services fs service_name prompt files options timeout dur now st
    r st' :
  execute services fs service_name prompt files options timeout TimeoutExpired dur now st
  = Some (r, st') ->
  st' = st /\ success r = false /\ exit_code r = 124.
Proof.
  unfold execute. destruct (build_command _ _ _ _ _ _); [|discriminate].
  intro H. injection H as <- <-. auto.
Qed.

(** The normal branch appends exactly one line when the log is writable. *)
Lemma execute_completed_logs_once services fs service_name prompt files options timeout
    rc out err dur now st r st' :
  d_usage_log_writable st = true ->
  execute services fs service_name prompt files options timeout (Completed rc out err) dur now st
  = Some (r, st') ->
  exists line,
    d_usage_log st' = Some (match d_usage_log st with Some l => l | None => [] end ++ [line]).
Proof.
  intros Hw. unfold execute. destruct (build_command _ _ _ _ _ _); [|discriminate].
  intro H. injection H as _ <-. unfold log_usage. rewrite Hw. simpl. eexists. reflexivity.
Qed.

(** [Delegator.summarize_lines] over entries that all fall in the window
    and carry a token count. *)
Lemma delegator_summarize_in_window (cutoff : Z) (es : list DLogEntry) (r s : Z) svcs :
  Forall (fun e => cutoff <= d_timestamp e /\ d_tokens_used e <> None) es ->
  exists svcs',
    summarize_lines cutoff (map DLine es) (mkDSummary r (Some s) svcs)
    = Some (mkDSummary (r + Z.of_nat (List.length es))
              (Some (s + Z.of_nat (List.length (filter d_success es)))) svcs').
Proof.
  revert r s svcs. induction es as [|e es IH]; intros r s svcs Hall; simpl.
  - exists svcs. do 3 f_equal; lia.
  - inversion Hall as [|? ? [He Ht] Hrest]; subst.
    replace (cutoff <=? d_timestamp e) with true by (symmetry; apply Z.leb_le; exact He).
    destruct (d_tokens_used e) as [tok|]; [|congruence].
    destruct (IH (r + 1) (if d_success e then s + 1 else s)
                (update_stats svcs e tok) Hrest) as [svcs' Hs].
    exists svcs'. rewrite Hs.
    destruct (d_success e); cbn [List.length filter];
    rewrite ?Nat2Z.inj_succ; f_equal; f_equal; try lia; f_equal; lia.
Qed.

(** C10. [execute] sets [tokens_used] to [estimate_tokens(files, prompt)]
    in the normal completion branch and leaves it [None] in the timeout
    branch and in the other-exception branch. *)
Theorem execute_tokens_used services fs service_name prompt files options timeout
    outcome dur now st r st' :
  execute services fs service_name prompt files options timeout outcome dur now st
  = Some (r, st') ->
  match outcome with
  | Completed _ _ _ => tokens_used r = Some (estimate_tokens fs files prompt)
  | TimeoutExpired | RaisedException _ => tokens_used r = None
  end.
Proof.
  unfold execute. destruct (build_command _ _ _ _ _ _); [|discriminate].
  destruct outcome; intro H; injection H as <- _; reflexivity.
Qed.

Lemma execute_tokens_used_witness :
  let fs := fun p => if String.eqb p "README.md" then FsFile (Some 400) else FsMissing in
  let st := mkDState (Some []) true in
  let opts := mkOptions None None None in
  let run := execute SERVICES fs "gemini" "summarise" ["README.md"] opts 300
               (Completed 0 "ok" "") 2 0 st in
  let r := match run with Some (r, _) => r | None => mkExecutionResult false "" "" 0 0 None None end in
  let st' := match run with Some (_, s) => s | None => st end in
  run = Some (r, st') /\ tokens_used r = Some (estimate_tokens fs ["README.md"] "summarise").
Proof.
  intros fs st opts run r st'.
  assert (E : run = Some (r, st')) by (vm_compute; reflexivity).
  split; [exact E|].
  exact (execute_tokens_used SERVICES fs "gemini" "summarise" ["README.md"] opts 300
           (Completed 0 "ok" "") 2 0 st r st' E).
Defined.

(** C1 (code bug). A [gemini] delegation whose child process outlives the
    1 s timeout returns [success = false] and [exit_code = 124] but appends
    nothing to [usage.jsonl]; the same call completing normally appends
    one line. *)
Theorem execute_timeout_not_logged :
  let st := mkDState (Some []) true in
  let opts := mkOptions None None None in
  match execute SERVICES (fun _ => FsMissing) "gemini" "sleep 10" [] opts 1
          TimeoutExpired 1 0 st,
        execute SERVICES (fun _ => FsMissing) "gemini" "sleep 10" [] opts 1
          (Completed 0 "" "") 1 0 st with
  | Some (r, st'), Some (_, st'') =>
      success r = false /\ exit_code r = 124 /\
      d_usage_log st' = Some [] /\
      option_map (@List.length DLogLine) (d_usage_log st'') = Some 1%nat
  | _, _ => False
  end.
Proof. vm_compute. split; [reflexivity|split; [reflexivity|split; reflexivity]]. Qed.

End DelegatorFacts.

(* ------------------------------------------------------------------ *)
(** ** Summaries of both logs *)

Module SummaryFacts.

(** C5 (code bug). With no event ever appended (no [usage.jsonl]) both
    [get_usage_summary] return early with a dictionary that has no
    [successful_requests] key, while over an existing log with no event
    the same functions return [successful_requests = 0]. *)
Theorem summary_no_log_omits_successes :
  UsageLogger.get_usage_summary 0 24 (UsageLogger.mkState None None true true)
  = UsageLogger.mkSummary 0 0 None None /\
  UsageLogger.get_usage_summary 0 24 (UsageLogger.mkState (Some []) None true true)
  = UsageLogger.mkSummary 0 0 (Some 0) (Some 24) /\
  Delegator.get_usage_summary 0 7 (Delegator.mkDState None true)
  = Some (Delegator.mkDSummary 0 None []) /\
  Delegator.get_usage_summary 0 7 (Delegator.mkDState (Some []) true)
  = Some (Delegator.mkDSummary 0 (Some 0) []).
Proof. split; [|split; [|split]]; reflexivity. Qed.

(** Over a window that covers every appended event, both
    [get_usage_summary] return [total_requests] = the number of events and
    [successful_requests] = the number of events with [success = true]
    (the delegator's log holds the token count its [execute] writes). When
    no event was ever appended (no log file) they return zero totals
    without failing, and the result has no [successful_requests] key. *)
Theorem usage_summary_counts :
  (forall now hours st es,
     UsageLogger.usage_log st = Some (map UsageLogger.Line es) ->
     Forall (fun e => now - hours * 3600 * SECOND <= UsageLogger.le_timestamp e) es ->
     UsageLogger.s_total_requests (UsageLogger.get_usage_summary now hours st)
     = Z.of_nat (List.length es) /\
     UsageLogger.s_successful_requests (UsageLogger.get_usage_summary now hours st)
     = Some (UsageLogger.count_logger_successes es)) /\
  (forall now days st es,
     Delegator.d_usage_log st = Some (map Delegator.DLine es) ->
     Forall (fun e => now - days * 24 * 60 * 60 * SECOND <= Delegator.d_timestamp e
                      /\ Delegator.d_tokens_used e <> None) es ->
     exists sm, Delegator.get_usage_summary now days st = Some sm /\
       Delegator.ds_total_requests sm = Z.of_nat (List.length es) /\
       Delegator.ds_successful_requests sm
       = Some (Z.of_nat (List.length (filter Delegator.d_success es)))) /\
  (forall now hours st, UsageLogger.usage_log st = None ->
     UsageLogger.get_usage_summary now hours st = UsageLogger.mkSummary 0 0 None None) /\
  (forall now days st, Delegator.d_usage_log st = None ->
     Delegator.get_usage_summary now days st = Some (Delegator.mkDSummary 0 None [])).
Proof.
  split; [|split; [|split]].
  - intros now hours st es Hlog Hall. unfold UsageLogger.get_usage_summary.
    rewrite Hlog, UsageLoggerFacts.logger_summarize_in_window by exact Hall.
    simpl. split; reflexivity.
  - intros now days st es Hlog Hall. unfold Delegator.get_usage_summary. rewrite Hlog.
    destruct (DelegatorFacts.delegator_summarize_in_window _ es 0 0 [] Hall) as [svcs Hs].
    rewrite Hs. eexists. split; [reflexivity|]. simpl. split; reflexivity.
  - intros now hours st Hlog. unfold UsageLogger.get_usage_summary. rewrite Hlog. reflexivity.
  - intros now days st Hlog. unfold Delegator.get_usage_summary. rewrite Hlog. reflexivity.
Qed.

Lemma usage_summary_counts_witness :
  let e1 := UsageLogger.mkLogEntry (10 * SECOND) "gemini -p a" 5 5 true None None 10 in
  let e2 := UsageLogger.mkLogEntry (20 * SECOND) "gemini -p b" 7 7 false None None 10 in
  let st := UsageLogger.mkState (Some (map UsageLogger.Line [e1; e2])) None true true in
  UsageLogger.usage_log st = Some (map UsageLogger.Line [e1; e2]) /\
  Forall (fun e => 100 * SECOND - 1 * 3600 * SECOND <= UsageLogger.le_timestamp e) [e1; e2] /\
  UsageLogger.s_total_requests (UsageLogger.get_usage_summary (100 * SECOND) 1 st) = 2 /\
  UsageLogger.s_successful_requests (UsageLogger.get_usage_summary (100 * SECOND) 1 st)
  = Some (UsageLogger.count_logger_successes [e1; e2]).
Proof.
  intros e1 e2 st.
  assert (Hl : UsageLogger.usage_log st = Some (map UsageLogger.Line [e1; e2])) by reflexivity.
  assert (Hw : Forall (fun e => 100 * SECOND - 1 * 3600 * SECOND <= UsageLogger.le_timestamp e)
                 [e1; e2]).
  { repeat constructor; simpl; unfold SECOND; lia. }
  split; [exact Hl|]. split; [exact Hw|].
  destruct usage_summary_counts as [Hlog _].
  exact (Hlog (100 * SECOND) 1 st [e1; e2] Hl Hw).
Defined.

End SummaryFacts.

(* ------------------------------------------------------------------ *)
(** ** More of GeminiQuotaTracker *)

Module QuotaTrackerExtra.
Import QuotaTracker.

Lemma walk_total_eq (files : list (string * option Z)) (subdirs : list (string * WalkTree))
    (total : Z) :
  walk_total (WT files subdirs) total =
  let '(total1, ok1) := walk_add_files files total in
  if ok1 then walk_subdirs subdirs total1 else (total1, false).
Proof.
  simpl. generalize total. induction files as [|[f sz] rest IH]; intro tot; simpl.
  - generalize tot. induction subdirs as [|[d sub] ds IHd]; intro t0; simpl; [reflexivity|].
    destruct (skipped_dir d); [apply IHd|].
    destruct (walk_total sub t0) as [t1 ok]. destruct ok; [apply IHd|reflexivity].
  - destruct (counted_file f); [destruct sz|]; try apply IH; reflexivity.
Qed.

(** [can_handle_task] reports a reason exactly when it refuses, and at
    most one reason. *)
Theorem can_handle_issue_iff_denied (lim : Limits) (u : Usage) (t : Z) :
  (fst (can_handle_task lim u t) = true <-> snd (can_handle_task lim u t) = []) /\
  (List.length (snd (can_handle_task lim u t)) <= 1)%nat.
Proof.
  unfold can_handle_task.
  destruct (_ >=? _); [|destruct (_ >? _); [|destruct (_ >? _)]]; simpl;
  (split; [split; intro; solve [discriminate | reflexivity] | lia]).
Qed.

(** When [get_quota_status] returns, it reports "[OK] Healthy" exactly
    when its warnings list is empty. *)
Theorem quota_status_healthy_iff_no_warnings (lim : Limits) (u : Usage)
    (status : string) (warnings : list Warning) :
  get_quota_status lim u = Some (status, warnings) ->
  (status = "[OK] Healthy" <-> warnings = []).
Proof.
  unfold get_quota_status.
  destruct (quota_divisions_raise lim u); [discriminate|].
  destruct (over_warn (requests_last_minute u) (requests_per_minute lim));
  destruct (over_warn (tokens_last_minute u) (tokens_per_minute lim));
  cbn [String.eqb Ascii.eqb Bool.eqb andb];
  destruct (over_warn (u_daily_tokens u) (tokens_per_day lim));
  destruct (over_warn (requests_today u) (requests_per_day lim));
  destruct (over_critical (requests_last_minute u) (requests_per_minute lim)
            || over_critical (tokens_last_minute u) (tokens_per_minute lim));
  destruct (over_critical (u_daily_tokens u) (tokens_per_day lim)
            || over_critical (requests_today u) (requests_per_day lim));
  intro H; injection H as <- <-; split; intro Hs;
  solve [reflexivity | discriminate | destruct_with_eqn (@nil Warning); discriminate
        | exfalso; apply app_cons_not_nil in Hs; exact Hs
        | symmetry in Hs; simpl in Hs; discriminate].
Qed.

Lemma quota_status_healthy_iff_no_warnings_witness :
  get_quota_status DEFAULT_LIMITS (mkUsage 50 0 0 0)
  = Some ("[WARNING] High RPM", [RpmWarning 50 60]) /\
  ("[WARNING] High RPM" = "[OK] Healthy" <-> [RpmWarning 50 60] = []).
Proof.
  assert (E : get_quota_status DEFAULT_LIMITS (mkUsage 50 0 0 0)
              = Some ("[WARNING] High RPM", [RpmWarning 50 60])) by (vm_compute; reflexivity).
  split; [exact E|].
  exact (quota_status_healthy_iff_no_warnings DEFAULT_LIMITS (mkUsage 50 0 0 0) _ _ E).
Defined.

(** When none of its divisions raises, a per-minute ratio whose double
    is above 0.95, with neither daily one above it, gives
    "[CRITICAL] Rate Limit Soon" with the "IMMEDIATE" warning last. *)
Theorem quota_status_rate_critical (lim : Limits) (u : Usage) :
  quota_divisions_raise lim u = false ->
  over_critical (requests_last_minute u) (requests_per_minute lim)
  || over_critical (tokens_last_minute u) (tokens_per_minute lim) = true ->
  over_critical (u_daily_tokens u) (tokens_per_day lim)
  || over_critical (requests_today u) (requests_per_day lim) = false ->
  exists ws, get_quota_status lim u
             = Some ("[CRITICAL] Rate Limit Soon", ws ++ [RateLimitImmediate]).
Proof.
  intros Hnr Hr Hd. unfold get_quota_status. rewrite Hnr. cbv zeta.
  rewrite Hr, Hd.
  destruct (over_warn (requests_last_minute u) (requests_per_minute lim));
  destruct (over_warn (tokens_last_minute u) (tokens_per_minute lim));
  try destruct (String.eqb _ _);
  destruct (over_warn (u_daily_tokens u) (tokens_per_day lim));
  destruct (over_warn (requests_today u) (requests_per_day lim));
  eexists; reflexivity.
Qed.

Lemma quota_status_rate_critical_witness :
  get_quota_status (mkLimits 60 1000 (10 ^ 17) 1000000) (mkUsage 0 (95 * 10 ^ 15 + 1) 0 0)
  = Some ("[WARNING] High TPM", [TpmWarning (95 * 10 ^ 15 + 1) (10 ^ 17)]) /\
  get_quota_status DEFAULT_LIMITS (mkUsage 59 0 0 0)
  = Some ("[CRITICAL] Rate Limit Soon", [RpmWarning 59 60] ++ [RateLimitImmediate]) /\
  exists ws, get_quota_status DEFAULT_LIMITS (mkUsage 59 0 0 0)
             = Some ("[CRITICAL] Rate Limit Soon", ws ++ [RateLimitImmediate]).
Proof.
  split; [vm_compute; reflexivity|]. split; [vm_compute; reflexivity|].
  apply quota_status_rate_critical; vm_compute; reflexivity.
Defined.

Lemma filter_narrower (p q : Request -> bool) (l : list Request) :
  (forall r, p r = true -> q r = true) -> filter p (filter q l) = filter p l.
Proof.
  intro Hpq. induction l as [|r l IH]; simpl; [reflexivity|].
  destruct (q r) eqn:Eq; simpl; rewrite ?IH;
  [reflexivity|destruct (p r) eqn:Ep; [apply Hpq in Ep; congruence|reflexivity]].
Qed.

(** Dropping the requests older than 24 hours ([_cleanup_old_data]) does
    not change the last-minute request count or token sum
    [get_current_usage] reports. *)
Theorem cleanup_keeps_last_minute_usage (now : Z) (data : UsageData) :
  requests_last_minute (get_current_usage now (_cleanup_old_data now data))
  = requests_last_minute (get_current_usage now data) /\
  tokens_last_minute (get_current_usage now (_cleanup_old_data now data))
  = tokens_last_minute (get_current_usage now data).
Proof.
  assert (Hreq : requests (_cleanup_old_data now data)
                 = filter (fun req => now - DAY <? timestamp req) (requests data)).
  { unfold _cleanup_old_data. destruct (1 <=? _); reflexivity. }
  unfold get_current_usage. cbv zeta. rewrite Hreq, filter_narrower.
  - split; reflexivity.
  - intros r H. apply Z.ltb_lt in H. apply Z.ltb_lt. unfold MINUTE, DAY, SECOND in *. lia.
Qed.

(** When [_load_usage_data] returns, no request in its result is older
    than 24 hours. An absent file, or one rejected with [JSONDecodeError]
    or [KeyError], gives empty usage reset now; any other exception of
    reading or cleaning up the file propagates. *)
Theorem load_usage_data_recent (now : Z) (f : UsageFile) :
  (forall d, _load_usage_data now f = Some d ->
   forall r, In r (requests d) -> now - DAY < timestamp r) /\
  (f = NoUsageFile \/ f = CorruptUsageFile ->
   _load_usage_data now f = Some (mkUsageData [] 0 (Some now))) /\
  (f = UnreadableUsageFile -> _load_usage_data now f = None).
Proof.
  split; [|split].
  - intros d Hd r Hin. destruct f as [| | |data]; simpl in Hd; try discriminate;
    injection Hd as <-; simpl in Hin; try contradiction.
    unfold _cleanup_old_data in Hin. destruct (1 <=? _); simpl in Hin;
    apply filter_In in Hin; destruct Hin as [_ H]; apply Z.ltb_lt in H; exact H.
  - intros [-> | ->]; reflexivity.
  - intros ->. reflexivity.
Qed.

Lemma load_usage_data_recent_witness :
  let f := UsageFileData (mkUsageData [mkRequest 0 5 true; mkRequest DAY 7 true] 12 (Some 0)) in
  option_map requests (_load_usage_data (DAY + 1) f) = Some [mkRequest DAY 7 true] /\
  (forall d, _load_usage_data (DAY + 1) f = Some d ->
   forall r, In r (requests d) -> DAY + 1 - DAY < timestamp r) /\
  (f = NoUsageFile \/ f = CorruptUsageFile ->
   _load_usage_data (DAY + 1) f = Some (mkUsageData [] 0 (Some (DAY + 1)))) /\
  (f = UnreadableUsageFile -> _load_usage_data (DAY + 1) f = None).
Proof.
  intro f. split; [vm_compute; reflexivity|].
  exact (load_usage_data_recent (DAY + 1) f).
Defined.

Lemma walk_subdirs_skip (pre post : list (string * WalkTree)) (d : string) (t1 t2 : WalkTree)
    (total : Z) :
  skipped_dir d = true ->
  walk_subdirs (pre ++ (d, t1) :: post) total = walk_subdirs (pre ++ (d, t2) :: post) total.
Proof.
  intro Hd. revert total. induction pre as [|[d' sub] pre IH]; intro total; simpl.
  - rewrite Hd. reflexivity.
  - destruct (skipped_dir d'); [apply IH|].
    destruct (walk_total sub total) as [t' ok]. destruct ok; [apply IH|reflexivity].
Qed.

Lemma walk_subdirs_ext (pre post : list (string * WalkTree)) (d : string) (s1 s2 : WalkTree)
    (total : Z) :
  (forall tot, walk_total s1 tot = walk_total s2 tot) ->
  walk_subdirs (pre ++ (d, s1) :: post) total = walk_subdirs (pre ++ (d, s2) :: post) total.
Proof.
  intro Hs. revert total. induction pre as [|[d' sub] pre IH]; intro total; simpl.
  - destruct (skipped_dir d); [reflexivity|]. rewrite Hs. reflexivity.
  - destruct (skipped_dir d'); [apply IH|].
    destruct (walk_total sub total) as [t' ok]. destruct ok; [apply IH|reflexivity].
Qed.

Lemma walk_total_plug_pruned (path : list Frame) (files : list (string * option Z))
    (pre post : list (string * WalkTree)) (d : string) (t1 t2 : WalkTree) (total : Z) :
  skipped_dir d = true ->
  walk_total (plug (path ++ [(files, pre, d, post)]) t1) total
  = walk_total (plug (path ++ [(files, pre, d, post)]) t2) total.
Proof.
  intro Hd. revert total. induction path as [|[[[files' pre'] d'] post'] path IH]; intro total.
  - cbn [app plug]. rewrite !walk_total_eq.
    destruct (walk_add_files files total) as [t ok].
    destruct ok; [|reflexivity]. rewrite (walk_subdirs_skip pre post d t1 t2 t Hd). reflexivity.
  - cbn [app plug]. rewrite !walk_total_eq.
    destruct (walk_add_files files' total) as [t ok].
    destruct ok; [|reflexivity]. apply walk_subdirs_ext. exact IH.
Qed.

(** [estimate_task_tokens] never looks inside a pruned directory
    ([__pycache__], [node_modules], [.git], [venv], [.venv], [dist],
    [build]) at any depth below a given path: replacing its contents
    leaves the estimate unchanged. *)
Theorem estimate_ignores_pruned_dirs (fs : string -> PathEntry) (paths : list string)
    (prompt_length : Z) (top : string) (path : list Frame) (files : list (string * option Z))
    (pre post : list (string * WalkTree)) (d : string) (t1 t2 : WalkTree) :
  skipped_dir d = true ->
  estimate_task_tokens
    (fun p => if String.eqb p top then PDir (plug (path ++ [(files, pre, d, post)]) t1) else fs p)
    paths prompt_length
  = estimate_task_tokens
    (fun p => if String.eqb p top then PDir (plug (path ++ [(files, pre, d, post)]) t2) else fs p)
    paths prompt_length.
Proof.
  intro Hd. unfold estimate_task_tokens. f_equal.
  generalize prompt_length. induction paths as [|p ps IH]; intro tot; simpl; [reflexivity|].
  rewrite <- IH. f_equal. destruct (String.eqb p top); [|reflexivity].
  rewrite (walk_total_plug_pruned path files pre post d t1 t2 tot Hd). reflexivity.
Qed.

Lemma estimate_ignores_pruned_dirs_witness :
  let path : list Frame := [([("a.py", Some 400)], [], "pkg", [])] in
  let fs1 p := if String.eqb p "src" then
                 PDir (plug (path ++ [([("b.md", Some 40)], [], "node_modules", [])])
                         (WT [("x.js", Some 4000)] [("dist", WT [("y.py", Some 8)] [])]))
               else PMissing in
  let fs2 p := if String.eqb p "src" then
                 PDir (plug (path ++ [([("b.md", Some 40)], [], "node_modules", [])]) (WT [] []))
               else PMissing in
  estimate_task_tokens fs1 ["src"] 100 = 135 /\
  skipped_dir "node_modules" = true /\
  estimate_task_tokens fs1 ["src"] 100 = estimate_task_tokens fs2 ["src"] 100.
Proof.
  intros path fs1 fs2. split; [vm_compute; reflexivity|]. split; [reflexivity|].
  exact (estimate_ignores_pruned_dirs (fun _ => PMissing) ["src"] 100 "src" path
           [("b.md", Some 40)] [] [] "node_modules"
           (WT [("x.js", Some 4000)] [("dist", WT [("y.py", Some 8)] [])]) (WT [] []) eq_refl).
Defined.

(** Paths that do not exist add nothing: with only missing paths both
    estimators return the prompt length divided by 4 (rounded down). *)
Theorem estimate_missing_paths (qfs : string -> PathEntry) (dfs : Delegator.FileSystem)
    (paths : list string) (prompt_length : Z) (prompt : string) :
  (forall p, In p paths -> qfs p = PMissing /\ dfs p = Delegator.FsMissing) ->
  estimate_task_tokens qfs paths prompt_length = prompt_length / 4 /\
  Delegator.estimate_tokens dfs paths prompt = Z.of_nat (String.length prompt) / 4.
Proof.
  intro Hm. unfold estimate_task_tokens, Delegator.estimate_tokens. split; f_equal.
  - generalize prompt_length. induction paths as [|p ps IH]; intro tot; simpl; [reflexivity|].
    destruct (Hm p (or_introl eq_refl)) as [-> _].
    apply IH. intros q Hq. apply Hm. right. exact Hq.
  - generalize (Z.of_nat (String.length prompt)).
    induction paths as [|p ps IH]; intro tot; simpl; [reflexivity|].
    unfold Delegator.add_path at 2. destruct (Hm p (or_introl eq_refl)) as [_ ->].
    apply IH. intros q Hq. apply Hm. right. exact Hq.
Qed.

Lemma estimate_missing_paths_witness :
  estimate_task_tokens (fun _ => PMissing) ["missing/path"] 100 = 25 /\
  Delegator.estimate_tokens (fun _ => Delegator.FsMissing) ["missing/path"] "abcdefgh" = 2.
Proof.
  destruct (estimate_missing_paths (fun _ => PMissing) (fun _ => Delegator.FsMissing)
              ["missing/path"] 100 "abcdefgh") as [H1 H2].
  - intros p _. split; reflexivity.
  - rewrite H1, H2. split; reflexivity.
Defined.

End QuotaTrackerExtra.

(* ------------------------------------------------------------------ *)
(** ** More of UsageLogger *)

Module UsageLoggerExtra.
Import UsageLogger.

Lemma error_entries_sound (ls : list LogLine) (e : LogEntry) :
  In e (error_entries ls) -> is_error_entry e = true.
Proof.
  induction ls as [|[e'|] ls IH]; simpl; [tauto| |exact IH].
  destruct (is_error_entry e') eqn:He; simpl; [intros [<-|H]; auto|exact IH].
Qed.

(** [get_recent_errors(count)] returns only failed entries with an error
    message; [count = 0] returns all of them ([errors[-0:]] is the whole
    list), a positive [count] the last [min(count, len(errors))] in
    order, and a negative [count] drops the first [-count]. *)
Theorem get_recent_errors_slice (count : Z) (st : State) :
  let errs := error_entries (log_lines st) in
  (forall e, In e (get_recent_errors count st) -> is_error_entry e = true) /\
  (count = 0 -> get_recent_errors count st = errs) /\
  (0 < count ->
   exists older, errs = older ++ get_recent_errors count st /\
     Z.of_nat (List.length (get_recent_errors count st))
     = Z.min count (Z.of_nat (List.length errs))) /\
  (count < 0 -> get_recent_errors count st = skipn (Z.to_nat (- count)) errs).
Proof.
  intro errs.
  assert (Hg : get_recent_errors count st = py_slice_from (- count) errs).
  { unfold get_recent_errors, errs, log_lines. destruct (usage_log st); [reflexivity|].
    unfold py_slice_from. simpl. destruct (Z.to_nat _); reflexivity. }
  rewrite Hg. unfold py_slice_from.
  split; [|split; [|split]].
  - intros e Hin. apply (error_entries_sound (log_lines st)). change (In e errs).
    rewrite <- (firstn_skipn (Z.to_nat (if - count <? 0 then Z.max 0 (- count + Z.of_nat (List.length errs))
                        else Z.min (- count) (Z.of_nat (List.length errs)))) errs).
    apply in_app_iff. right. exact Hin.
  - intros ->. simpl. rewrite Z.min_l by lia. reflexivity.
  - intros Hc. replace (- count <? 0) with true by (symmetry; apply Z.ltb_lt; lia).
    set (k := Z.to_nat (Z.max 0 (- count + Z.of_nat (List.length errs)))).
    exists (firstn k errs). split; [symmetry; apply firstn_skipn|].
    rewrite length_skipn. unfold k. lia.
  - intros Hc. replace (- count <? 0) with false by (symmetry; apply Z.ltb_ge; lia).
    destruct (Z.min_spec (- count) (Z.of_nat (List.length errs))) as [[_ ->]|[H ->]];
    [reflexivity|].
    rewrite Nat2Z.id, skipn_all, skipn_all2; [reflexivity|lia].
Qed.

Lemma get_recent_errors_slice_witness :
  let e1 := mkLogEntry 1 "a" 0 0 false None (Some "boom") 0 in
  let e2 := mkLogEntry 2 "b" 0 0 true None None 0 in
  let e3 := mkLogEntry 3 "c" 0 0 false None (Some "late") 0 in
  let st := mkState (Some [Line e1; Malformed; Line e2; Line e3]) None true true in
  get_recent_errors 1 st = [e3] /\ get_recent_errors 0 st = [e1; e3] /\
  get_recent_errors (-1) st = [e3] /\
  (let errs := error_entries (log_lines st) in
   (forall e, In e (get_recent_errors 1 st) -> is_error_entry e = true) /\
   (1 = 0 -> get_recent_errors 1 st = errs) /\
   (0 < 1 ->
    exists older, errs = older ++ get_recent_errors 1 st /\
      Z.of_nat (List.length (get_recent_errors 1 st))
      = Z.min 1 (Z.of_nat (List.length errs))) /\
   (1 < 0 -> get_recent_errors 1 st = skipn (Z.to_nat (- 1)) errs)).
Proof.
  intros e1 e2 e3 st. split; [reflexivity|]. split; [reflexivity|]. split; [reflexivity|].
  exact (get_recent_errors_slice 1 st).
Defined.

Lemma session_sum_app (f : LogEntry -> Z) (sid : Z) (ls : list LogLine) (e : LogEntry) :
  session_sum f sid (ls ++ [Line e])
  = session_sum f sid ls + (if le_session_id e =? sid then f e else 0).
Proof. induction ls as [|[e'|] ls IH]; simpl; [lia|rewrite IH; lia|exact IH]. Qed.

Lemma session_sum_fresh (f : LogEntry -> Z) (sid : Z) (ls : list LogLine) :
  (forall e, In (Line e) ls -> le_session_id e <> sid) -> session_sum f sid ls = 0.
Proof.
  induction ls as [|[e'|] ls IH]; intro Hf; simpl; [reflexivity| |].
  - rewrite IH by (intros e He; apply Hf; right; exact He).
    destruct (Z.eqb_spec (le_session_id e') sid) as [E|_]; [|reflexivity].
    exfalso. exact (Hf e' (or_introl eq_refl) E).
  - apply IH. intros e He. apply Hf. right. exact He.
Qed.

Lemma td_seconds_le (d : Z) : 0 <= d -> td_seconds d <= d / SECOND.
Proof.
  intro Hd. unfold td_seconds.
  assert (0 <= d / SECOND) by (apply Z.div_pos; unfold SECOND; lia).
  apply Z.mod_le; lia.
Qed.

(** [log_usage] keeps the files consistent: from a consistent state at
    time [t], a successful [log_usage] at a later [now] with a writable
    [current_session.json] leaves a state consistent at [now]; a new
    session id never collides with the id of an earlier entry, so the
    session counters count exactly the entries of the session. *)
Theorem log_usage_session_consistent (t now : Z) (entry : UsageEntry) (st st' : State) :
  session_consistent t st ->
  session_file_writable st = true ->
  t <= now ->
  log_usage now entry st = Ok st' ->
  session_consistent now st' /\ session_file_writable st' = true.
Proof.
  intros [Ht [Hlines Hsf]] Hw Htn Hlog.
  assert (Hq : int_time now * SECOND <= now).
  { unfold int_time. rewrite Z.quot_div_nonneg by (unfold SECOND; lia).
    rewrite Z.mul_comm. apply Z.mul_div_le. unfold SECOND; lia. }
  unfold log_usage, _get_session_id in Hlog. rewrite Hw in Hlog.
  destruct (session_file st) as [sd|] eqn:Esf;
  [destruct (td_seconds (now - last_activity sd) <? SESSION_TIMEOUT_SECONDS) eqn:Etd|];
  simpl in Hlog; unfold set_session_file in Hlog; simpl in Hlog;
  destruct (usage_log_writable st) eqn:Euw; try discriminate;
  injection Hlog as <-;
  unfold _update_session_stats, set_usage_log, session_consistent, log_lines in *;
  simpl; rewrite ?Hw, ?Esf; simpl; (split; [|first [exact Hw | reflexivity]]);
  (split; [lia|]); rewrite ?session_sum_app, ?Z.eqb_refl.
  - (* the session goes on *)
    destruct Hsf as [Hla [Hsid [Hr [Htk Hs]]]].
    split.
    + intros e He. apply in_app_iff in He. destruct He as [He|[He|[]]].
      * specialize (Hlines e He). lia.
      * injection He as <-. simpl. lia.
    + simpl. split; [reflexivity|]. split; [lia|].
      rewrite Hr, Htk, Hs. destruct (success entry); repeat split; lia.
  - (* a new session starts *)
    destruct Hsf as [Hla [Hsid _]].
    apply Z.ltb_ge in Etd. unfold SESSION_TIMEOUT_SECONDS in Etd.
    assert (Hgap : 3600 <= (now - t) / SECOND).
    { rewrite <- Hla. eapply Z.le_trans; [exact Etd|]. apply td_seconds_le. lia. }
    assert (Hold : forall e, In (Line e) (match usage_log st with Some l => l | None => [] end) ->
                             le_session_id e <> int_time now).
    { intros e He Heq. specialize (Hlines e He).
      assert (Hlt : le_session_id e < now / SECOND).
      { assert (Hg2 : SECOND * ((now - t) / SECOND) <= now - t)
          by (apply Z.mul_div_le; unfold SECOND; lia).
        assert (Hs : 0 <= le_session_id e + 1 <= now / SECOND \/ le_session_id e < 0).
        { destruct (Z.ltb_spec (le_session_id e) 0) as [Hn|Hn]; [right; exact Hn|left].
          split; [lia|]. apply Z.div_le_lower_bound; unfold SECOND in *; lia. }
        assert (0 <= now / SECOND) by (apply Z.div_pos; unfold SECOND; lia).
        lia. }
      unfold int_time in Heq. rewrite Z.quot_div_nonneg in Heq by (unfold SECOND; lia). lia. }
    rewrite !(session_sum_fresh _ _ _ Hold).
    split.
    + intros e He. apply in_app_iff in He. destruct He as [He|[He|[]]].
      * specialize (Hlines e He). lia.
      * injection He as <-. simpl. lia.
    + simpl. split; [reflexivity|]. split; [lia|].
      destruct (success entry); repeat split; lia.
  - (* no session file yet *)
    split.
    + intros e He. apply in_app_iff in He. destruct He as [He|[He|[]]].
      * exfalso. exact (Hsf e He).
      * injection He as <-. simpl. lia.
    + simpl. split; [reflexivity|]. split; [lia|].
      rewrite !(session_sum_fresh _ _ _ (fun e He _ => Hsf e He)).
      destruct (success entry); repeat split; lia.
Qed.

Lemma log_usage_session_consistent_witness :
  let e1 := mkLogEntry (5 * SECOND) "gemini -p a" 10 12 true None None 5 in
  let st0 := mkState (Some [Line e1]) (Some (mkSessionData 5 (Some (5 * SECOND)) (5 * SECOND) 1 12 1))
               true true in
  let entry := mkUsageEntry "gemini -p b" 20 None false None (Some "boom") in
  session_consistent (5 * SECOND) st0 /\
  (exists st', log_usage (65 * SECOND) entry st0 = Ok st' /\
     session_file st' = Some (mkSessionData 5 (Some (5 * SECOND)) (65 * SECOND) 2 32 1) /\
     session_consistent (65 * SECOND) st' /\ session_file_writable st' = true) /\
  (exists st', log_usage (4005 * SECOND) entry st0 = Ok st' /\
     session_file st'
     = Some (mkSessionData 4005 (Some (4005 * SECOND)) (4005 * SECOND) 1 20 0) /\
     session_consistent (4005 * SECOND) st' /\ session_file_writable st' = true).
Proof.
  intros e1 st0 entry.
  assert (Hc : session_consistent (5 * SECOND) st0).
  { unfold session_consistent, log_lines, st0. cbn [usage_log session_file].
    split; [unfold SECOND; lia|]. split.
    - intros e [H|[]]. injection H as <-. cbn. unfold SECOND; lia.
    - cbn. split; [reflexivity|]. split; [unfold SECOND; lia|]. repeat split. }
  split; [exact Hc|]. split.
  - eexists. split; [reflexivity|]. split; [reflexivity|].
    apply (log_usage_session_consistent (5 * SECOND) (65 * SECOND) entry st0); 
      [exact Hc|reflexivity|unfold SECOND; lia|reflexivity].
  - eexists. split; [reflexivity|]. split; [reflexivity|].
    apply (log_usage_session_consistent (5 * SECOND) (4005 * SECOND) entry st0);
      [exact Hc|reflexivity|unfold SECOND; lia|reflexivity].
Defined.

Lemma summarize_lines_filter (cutoff : Z) (ls : list LogLine) (r t s : Z) :
  let W := filter (fun e => cutoff <=? le_timestamp e) (line_entries ls) in
  summarize_lines cutoff ls (r, t, s)
  = (r + Z.of_nat (List.length W), t + sum_actual_tokens W, s + count_logger_successes W).
Proof.
  revert r t s. unfold count_logger_successes.
  induction ls as [|[e|] ls IH]; intros r t s; simpl.
  - rewrite !pair_equal_spec; repeat split; lia.
  - destruct (cutoff <=? le_timestamp e); simpl; rewrite IH.
    + destruct (le_success e); cbn [List.length];
      rewrite ?Nat2Z.inj_succ; unfold sum_actual_tokens; simpl; rewrite !pair_equal_spec; repeat split; lia.
    + reflexivity.
  - apply IH.
Qed.

(** [get_usage_summary(hours)] counts exactly the parsed entries with a
    timestamp at or after [now - hours]: lines that fail to parse and
    older entries are skipped, [total_tokens] sums their
    [actual_tokens] and [successful_requests] counts the successful ones. *)
Theorem get_usage_summary_window (now hours : Z) (st : State) (ls : list LogLine) :
  usage_log st = Some ls ->
  let W := filter (fun e => now - hours * 3600 * SECOND <=? le_timestamp e) (line_entries ls) in
  get_usage_summary now hours st
  = mkSummary (Z.of_nat (List.length W)) (sum_actual_tokens W)
      (Some (count_logger_successes W)) (Some hours).
Proof.
  intros Hl W. unfold get_usage_summary. rewrite Hl.
  rewrite summarize_lines_filter. reflexivity.
Qed.

Lemma get_usage_summary_window_witness :
  let e1 := mkLogEntry (1 * SECOND) "gemini -p old" 5 5 true None None 1 in
  let e2 := mkLogEntry (7200 * SECOND) "gemini -p a" 7 7 false None (Some "x") 1 in
  let e3 := mkLogEntry (7300 * SECOND) "gemini -p b" 9 9 true None None 1 in
  let st := mkState (Some [Line e1; Line e2; Malformed; Line e3]) None true true in
  get_usage_summary (7400 * SECOND) 1 st = mkSummary 2 16 (Some 1) (Some 1) /\
  let W := filter (fun e => 7400 * SECOND - 1 * 3600 * SECOND <=? le_timestamp e)
             (line_entries [Line e1; Line e2; Malformed; Line e3]) in
  get_usage_summary (7400 * SECOND) 1 st
  = mkSummary (Z.of_nat (List.length W)) (sum_actual_tokens W)
      (Some (count_logger_successes W)) (Some 1).
Proof.
  intros e1 e2 e3 st. split; [vm_compute; reflexivity|].
  exact (get_usage_summary_window (7400 * SECOND) 1 st _ eq_refl).
Defined.

End UsageLoggerExtra.

(* ------------------------------------------------------------------ *)
(** ** More of Delegator *)

Module DelegatorExtra.
Import Delegator.

Lemma add_dir_files_ge (files : list (string * option Z)) (total : Z) :
  (forall suffix sz, In (suffix, Some sz) files -> 0 <= sz) -> total <= add_dir_files files total.
Proof.
  revert total. induction files as [|[suffix [sz|]] files IH]; intros total Hf; simpl; [lia| |].
  - assert (0 <= sz) by (apply (Hf suffix); left; reflexivity).
    assert (total + sz <= add_dir_files files (total + sz))
      by (apply IH; intros suf' sz' H'; apply (Hf suf'); right; exact H').
    assert (total <= add_dir_files files total)
      by (apply IH; intros suf' sz' H'; apply (Hf suf'); right; exact H').
    destruct (counted_suffix suffix); lia.
  - assert (total <= add_dir_files files total)
      by (apply IH; intros suf' sz' H'; apply (Hf suf'); right; exact H').
    destruct (counted_suffix suffix); lia.
Qed.

Lemma fold_add_path_ge (fs : FileSystem) (paths : list string) (total : Z) :
  sizes_nonneg fs -> total <= fold_left (add_path fs) paths total.
Proof.
  intros [Hfile Hdir]. revert total.
  induction paths as [|p ps IH]; intro total; simpl; [lia|].
  eapply Z.le_trans; [|apply IH]. unfold add_path.
  destruct (fs p) as [[sz|]|files|] eqn:Ep; try lia.
  - specialize (Hfile p sz Ep). lia.
  - apply add_dir_files_ge. intros suffix sz Hin. exact (Hdir p files suffix sz Ep Hin).
Qed.

(** With nonnegative file sizes, naming more files never lowers
    [estimate_tokens]. *)
Theorem estimate_tokens_monotone (fs : FileSystem) (files more : list string) (prompt : string) :
  sizes_nonneg fs ->
  estimate_tokens fs files prompt <= estimate_tokens fs (files ++ more) prompt.
Proof.
  intro Hn. unfold estimate_tokens. rewrite fold_left_app.
  apply Z.div_le_mono; [lia|]. apply fold_add_path_ge. exact Hn.
Qed.

Lemma estimate_tokens_monotone_witness :
  let fs : FileSystem := fun p =>
    if String.eqb p "a.py" then FsFile (Some 40)
    else if String.eqb p "src" then FsDir [(".py", Some 80); (".bin", Some 999)]
    else FsMissing in
  estimate_tokens fs ["a.py"] "" = 10 /\ estimate_tokens fs ["a.py"; "src"] "" = 30 /\
  estimate_tokens fs ["a.py"] "" <= estimate_tokens fs (["a.py"] ++ ["src"]) "".
Proof.
  intro fs. split; [reflexivity|]. split; [reflexivity|].
  apply estimate_tokens_monotone. split.
  - intros p sz Hp. unfold fs in Hp.
    destruct (String.eqb p "a.py"); [injection Hp as <-; lia|].
    destruct (String.eqb p "src"); discriminate.
  - intros p files suffix sz Hp Hin. unfold fs in Hp.
    destruct (String.eqb p "a.py"); [discriminate|].
    destruct (String.eqb p "src"); [|discriminate].
    injection Hp as <-. simpl in Hin.
    destruct Hin as [H|[H|[]]]; injection H as _ <-; lia.
Defined.

Lemma update_stats_keys (svcs : list (string * ServiceStats)) (e : DLogEntry) (tok : Z) (k : string) :
  In k (map fst (update_stats svcs e tok)) <-> In k (map fst svcs) \/ k = d_service e.
Proof.
  induction svcs as [|[k' s] rest IH]; simpl.
  - split; [intros [H|[]]; right; congruence|intros [[]|H]; left; congruence].
  - destruct (String.eqb_spec k' (d_service e)) as [E|E]; simpl.
    + split; [tauto|intros [H|H]; [exact H|left; congruence]].
    + rewrite IH. tauto.
Qed.

Lemma update_stats_nodup (svcs : list (string * ServiceStats)) (e : DLogEntry) (tok : Z) :
  NoDup (map fst svcs) -> NoDup (map fst (update_stats svcs e tok)).
Proof.
  induction svcs as [|[k s] rest IH]; simpl; intro Hnd.
  - constructor; [tauto|constructor].
  - inversion Hnd as [|? ? Hk Hr]; subst.
    destruct (String.eqb_spec k (d_service e)); simpl; constructor; auto.
    rewrite update_stats_keys. intros [H|H]; [exact (Hk H)|congruence].
Qed.

Lemma update_stats_sums (svcs : list (string * ServiceStats)) (e : DLogEntry) (tok : Z) :
  sum_requests (update_stats svcs e tok) = sum_requests svcs + 1 /\
  sum_successful (update_stats svcs e tok)
  = sum_successful svcs + (if d_success e then 1 else 0).
Proof.
  unfold sum_requests, sum_successful.
  induction svcs as [|[k s] rest IH]; simpl.
  - destruct (d_success e); simpl; lia.
  - destruct (String.eqb k (d_service e)); simpl.
    + destruct (d_success e); simpl; lia.
    + destruct IH as [H1 H2]. rewrite H1, H2. lia.
Qed.

Lemma summarize_lines_ok (cutoff : Z) (ls : list DLogLine) (acc ds : DSummary) :
  NoDup (map fst (ds_services acc)) ->
  summarize_lines cutoff ls acc = Some ds ->
  sum_requests (ds_services ds) + partial_requests cutoff ls - ds_total_requests ds
  = sum_requests (ds_services acc) - ds_total_requests acc /\
  sum_successful (ds_services ds) + partial_successes cutoff ls
  - get_or (ds_successful_requests ds) 0
  = sum_successful (ds_services acc) - get_or (ds_successful_requests acc) 0 /\
  NoDup (map fst (ds_services ds)).
Proof.
  revert acc. induction ls as [|[e| |ts|ts sc] ls IH]; intros acc Hnd Hs; simpl in Hs |- *.
  - injection Hs as <-. split; [lia|]. split; [lia|exact Hnd].
  - destruct (cutoff <=? d_timestamp e); [|exact (IH acc Hnd Hs)].
    destruct (d_tokens_used e) as [tok|]; [|discriminate].
    eapply IH in Hs; [|exact (update_stats_nodup _ e tok Hnd)].
    destruct Hs as [H1 [H2 H3]]. simpl in H1, H2.
    destruct (update_stats_sums (ds_services acc) e tok) as [U1 U2].
    rewrite U1 in H1. rewrite U2 in H2. split; [lia|split; [|exact H3]].
    destruct (ds_successful_requests acc), (d_success e); simpl in H2 |- *; lia.
  - exact (IH acc Hnd Hs).
  - destruct (cutoff <=? ts); eapply IH in Hs; try exact Hnd;
    destruct Hs as [H1 [H2 H3]]; simpl in H1, H2; split; try lia; split; try lia; exact H3.
  - destruct (cutoff <=? ts); eapply IH in Hs; try exact Hnd;
    destruct Hs as [H1 [H2 H3]]; simpl in H1, H2; (split; [lia|split; [|exact H3]]);
    destruct (ds_successful_requests acc), sc; cbn [get_or] in H2 |- *; lia.
Qed.

(** In a summary [get_usage_summary] returns, each service appears once
    in ["services"]. The services' request counts add up to
    ["total_requests"] less the window lines whose [KeyError] (no
    [success] or no [service] key) came after [total_requests] was
    incremented; likewise for ["successful_requests"]. *)
Theorem get_usage_summary_services_add_up (now days : Z) (st : DState) (ds : DSummary) :
  get_usage_summary now days st = Some ds ->
  let cutoff := now - days * 24 * 60 * 60 * SECOND in
  let ls := match d_usage_log st with Some l => l | None => [] end in
  sum_requests (ds_services ds) + partial_requests cutoff ls = ds_total_requests ds /\
  sum_successful (ds_services ds) + partial_successes cutoff ls
  = get_or (ds_successful_requests ds) 0 /\
  NoDup (map fst (ds_services ds)).
Proof.
  intros Hs cutoff ls. unfold get_usage_summary in Hs. unfold ls. destruct (d_usage_log st) as [l|].
  - destruct (summarize_lines_ok cutoff l (mkDSummary 0 (Some 0) []) ds (NoDup_nil string) Hs) as [H1 [H2 H3]].
    simpl in H1, H2. split; [lia|split; [lia|exact H3]].
  - injection Hs as <-. split; [reflexivity|]. split; [reflexivity|]. constructor.
Qed.

Lemma get_usage_summary_services_add_up_witness :
  let e1 := mkDLogEntry (10 * SECOND) "gemini" "gemini -p a" true 3 (Some 5) 0 None in
  let e2 := mkDLogEntry (11 * SECOND) "qwen" "qwen -p b" false 4 (Some 6) 1 (Some "err") in
  let e3 := mkDLogEntry (12 * SECOND) "gemini" "gemini -p c" true 2 (Some 7) 0 None in
  let st := mkDState (Some [DLine e1; DMalformed; DLine e2; DNoService (13 * SECOND) true;
                            DLine e3; DNoSuccess (14 * SECOND)]) true in
  (exists ds, get_usage_summary (20 * SECOND) 1 st = Some ds /\
     ds_total_requests ds = 5 /\ ds_successful_requests ds = Some 3 /\
     sum_requests (ds_services ds) = 3 /\ List.length (ds_services ds) = 2%nat) /\
  forall ds, get_usage_summary (20 * SECOND) 1 st = Some ds ->
  let cutoff := 20 * SECOND - 1 * 24 * 60 * 60 * SECOND in
  let ls := match d_usage_log st with Some l => l | None => [] end in
  sum_requests (ds_services ds) + partial_requests cutoff ls = ds_total_requests ds /\
  sum_successful (ds_services ds) + partial_successes cutoff ls
  = get_or (ds_successful_requests ds) 0 /\
  NoDup (map fst (ds_services ds)).
Proof.
  intros e1 e2 e3 st. split.
  - eexists. split; [reflexivity|]. repeat split; reflexivity.
  - intro ds. apply get_usage_summary_services_add_up.
Defined.

(** [verify_service] reports a known service ready (no issue) exactly
    when its [--version] probe exits with 0 and its credential check
    passes: for [api_key] with a named variable, the variable is set to a
    non-empty value; for [cli], [auth status] exits with 0; for
    [api_key] with no variable name, or any other method, nothing is
    checked. *)
Theorem verify_service_ready (services : list (string * ServiceConfig))
    (probe : list string -> Probe) (getenv : string -> option string)
    (n : string) (svc : ServiceConfig) :
  lookup_service services n = Some svc ->
  let ready := verify_service services probe getenv n = Some (true, []) in
  let version_ok := probe [sc_command svc; "--version"] = Exited 0 in
  (forall v, auth_method svc = "api_key" -> auth_env_var svc = Some v -> v <> "" ->
     ready <-> version_ok /\ exists x, getenv v = Some x /\ x <> "") /\
  (auth_method svc = "cli" ->
     ready <-> version_ok /\ probe [sc_command svc; "auth"; "status"] = Exited 0) /\
  ((auth_method svc = "api_key" /\ (auth_env_var svc = None \/ auth_env_var svc = Some "")
    \/ auth_method svc <> "api_key" /\ auth_method svc <> "cli") ->
     ready <-> version_ok).
Proof.
  intros Hl ready version_ok. unfold ready, version_ok, verify_service. rewrite Hl. cbv zeta.
  split; [|split].
  - intros v Ham Hv Hne. rewrite Ham, Hv. apply String.eqb_neq in Hne. rewrite Hne. simpl.
    destruct (probe [sc_command svc; "--version"]) as [[|rc|rc]| | |]; simpl;
    try (split; [discriminate|intros [H _]; discriminate]).
    destruct (getenv v) as [x|] eqn:Eg.
    + destruct (String.eqb_spec x "") as [->|Hx]; simpl.
      * split; [discriminate|intros [_ [y [Hy Hy']]]; congruence].
      * split; [intros _; split; [reflexivity|exists x; split; [reflexivity|exact Hx]]|reflexivity].
    + split; [discriminate|intros [_ [y [Hy _]]]; discriminate].
  - intros Ham. rewrite Ham. simpl.
    destruct (probe [sc_command svc; "--version"]) as [[|rc|rc]| | |]; simpl;
    try (split; [discriminate|intros [H _]; discriminate]).
    destruct (probe [sc_command svc; "auth"; "status"]) as [[|rc|rc]| | |]; simpl;
    try (split; [discriminate|intros [_ H]; discriminate]).
    split; [intros _; split; reflexivity|reflexivity].
  - intros Hm.
    assert (Ha : (String.eqb (auth_method svc) "api_key"
                  && match auth_env_var svc with Some v => negb (String.eqb v "") | None => false end)
                 = false /\ String.eqb (auth_method svc) "cli" = false).
    { destruct Hm as [[Ham [Hv|Hv]]|[H1 H2]]; rewrite ?Ham, ?Hv; simpl.
      - split; reflexivity.
      - split; reflexivity.
      - apply String.eqb_neq in H1, H2. rewrite H1, H2. split; reflexivity. }
    destruct Ha as [Ha1 Ha2]. rewrite Ha1, Ha2.
    destruct (probe [sc_command svc; "--version"]) as [[|rc|rc]| | |]; simpl;
    try (split; [discriminate|intros H; discriminate]).
    split; reflexivity.
Qed.

Lemma verify_service_ready_witness :
  let probe (argv : list string) := Exited 0 in
  let getenv (v : string) := if String.eqb v "GEMINI_API_KEY" then Some "k" else None in
  verify_service SERVICES probe getenv "gemini" = Some (true, []) /\
  verify_service SERVICES probe (fun _ => None) "gemini"
  = Some (false, ["Environment variable GEMINI_API_KEY not set"]) /\
  let ready := verify_service SERVICES probe getenv "gemini" = Some (true, []) in
  let version_ok := probe ["gemini"; "--version"] = Exited 0 in
  (forall v, "api_key" = "api_key" -> Some "GEMINI_API_KEY" = Some v -> v <> "" ->
     ready <-> version_ok /\ exists x, getenv v = Some x /\ x <> "") /\
  ("api_key" = "cli" ->
     ready <-> version_ok /\ probe ["gemini"; "auth"; "status"] = Exited 0) /\
  (("api_key" = "api_key" /\ (Some "GEMINI_API_KEY" = None \/ Some "GEMINI_API_KEY" = Some "")
    \/ "api_key" <> "api_key" /\ "api_key" <> "cli") ->
     ready <-> version_ok).
Proof.
  intros probe getenv. split; [reflexivity|]. split; [reflexivity|].
  exact (verify_service_ready SERVICES probe getenv "gemini"
           (mkServiceConfig "gemini" "gemini" "api_key" (Some "GEMINI_API_KEY")
              [("requests_per_minute", 60); ("requests_per_day", 1000);
               ("tokens_per_day", 1000000)]) eq_refl).
Defined.

(** The service selection of [smart_delegate] only ever picks [gemini]
    or [qwen]. A routing requirement picks one without verifying it, so
    the probes and the environment play no part; otherwise the pick is a
    service [verify_service] reports available, [qwen] only when
    [gemini] is not, and [RuntimeError] means neither is. *)
Theorem select_service_sound (services : list (string * ServiceConfig))
    (probe : list string -> Probe) (getenv : string -> option string) (req : Requirements) :
  (forall s, select_service services probe getenv req = Selected s -> s = "gemini" \/ s = "qwen") /\
  (routed req = true ->
   forall probe' getenv',
   select_service services probe getenv req = select_service services probe' getenv' req) /\
  (routed req = false ->
   (forall s, select_service services probe getenv req = Selected s ->
      (exists is, verify_service services probe getenv s = Some (true, is)) /\
      (s = "qwen" -> exists is, verify_service services probe getenv "gemini" = Some (false, is))) /\
   (select_service services probe getenv req = NoServiceAvailable ->
      (exists is, verify_service services probe getenv "gemini" = Some (false, is)) /\
      (exists is, verify_service services probe getenv "qwen" = Some (false, is)))).
Proof.
  unfold select_service, routed. split; [|split].
  - intros s Hs.
    destruct (large_context req && gemini_available req);
    [injection Hs as <-; left; reflexivity|].
    destruct (code_execution req && qwen_available req);
    [injection Hs as <-; right; reflexivity|].
    destruct (fast_response req); [injection Hs as <-; left; reflexivity|].
    destruct (verify_service services probe getenv "gemini") as [[[|] ?]|];
    [injection Hs as <-; left; reflexivity| |discriminate].
    destruct (verify_service services probe getenv "qwen") as [[[|] ?]|];
    [injection Hs as <-; right; reflexivity|discriminate|discriminate].
  - intros Hr probe' getenv'.
    destruct (large_context req && gemini_available req); [reflexivity|].
    destruct (code_execution req && qwen_available req); [reflexivity|].
    destruct (fast_response req); [reflexivity|discriminate].
  - intros Hr.
    destruct (large_context req && gemini_available req); [discriminate|].
    destruct (code_execution req && qwen_available req); [discriminate|].
    destruct (fast_response req); [discriminate|].
    destruct (verify_service services probe getenv "gemini") as [[[|] ig]|] eqn:Eg.
    + split; [|discriminate]. intros s Hs. injection Hs as <-.
      split; [exists ig; exact Eg|discriminate].
    + destruct (verify_service services probe getenv "qwen") as [[[|] iq]|] eqn:Eq.
      * split; [|discriminate]. intros s Hs. injection Hs as <-.
        split; [exists iq; exact Eq|intros _; exists ig; reflexivity].
      * split; [discriminate|]. intros _. split; [exists ig|exists iq]; reflexivity.
      * split; discriminate.
    + split; discriminate.
Qed.

Lemma select_service_sound_witness :
  let req := mkRequirements false false false false false in
  let probe (argv : list string) :=
    match argv with "gemini" :: _ => NotFound | _ => Exited 0 end in
  select_service SERVICES probe (fun _ => None) req = Selected "qwen" /\
  select_service SERVICES (fun _ => Exited 1) (fun _ => None)
    (mkRequirements false false false false true) = Selected "gemini" /\
  (forall s, select_service SERVICES probe (fun _ => None) req = Selected s ->
     s = "gemini" \/ s = "qwen") /\
  (routed req = true ->
   forall probe' getenv',
   select_service SERVICES probe (fun _ => None) req = select_service SERVICES probe' getenv' req) /\
  (routed req = false ->
   (forall s, select_service SERVICES probe (fun _ => None) req = Selected s ->
      (exists is, verify_service SERVICES probe (fun _ => None) s = Some (true, is)) /\
      (s = "qwen" -> exists is, verify_service SERVICES probe (fun _ => None) "gemini"
                                = Some (false, is))) /\
   (select_service SERVICES probe (fun _ => None) req = NoServiceAvailable ->
      (exists is, verify_service SERVICES probe (fun _ => None) "gemini" = Some (false, is)) /\
      (exists is, verify_service SERVICES probe (fun _ => None) "qwen" = Some (false, is)))).
Proof.
  intros req probe. split; [reflexivity|]. split; [reflexivity|].
  exact (select_service_sound SERVICES probe (fun _ => None) req).
Defined.

Lemma file_refs_missing (fs : FileSystem) (files : list string) :
  (forall f, In f files -> fs f = FsMissing) -> flat_map (file_ref fs) files = [].
Proof.
  induction files as [|f fs' IH]; intro Hm; simpl; [reflexivity|].
  unfold file_ref at 1. rewrite (Hm f (or_introl eq_refl)). simpl.
  apply IH. intros g Hg. apply Hm. right. exact Hg.
Qed.

(** [build_command] starts with the service's command and ends with
    [-p] and the prompt; with only paths that do not exist the prompt is
    passed unchanged, and for a service other than [gemini] and [qwen]
    the [output_format] option is dropped. *)
Theorem build_command_shape (services : list (string * ServiceConfig)) (fs : FileSystem)
    (n prompt : string) (files : list string) (options : Options) (argv : list string) :
  build_command services fs n prompt files options = Some argv ->
  exists svc mid full,
    lookup_service services n = Some svc /\
    argv = sc_command svc :: mid ++ ["-p"; full] /\
    ((forall f, In f files -> fs f = FsMissing) -> full = prompt) /\
    (n <> "gemini" -> n <> "qwen" ->
     mid = opt_args "--model" (opt_model options) ++ opt_args "--temperature" (opt_temperature options)).
Proof.
  unfold build_command. destruct (lookup_service services n) as [svc|]; [|discriminate].
  intro H. injection H as <-.
  eexists svc, _, _. split; [reflexivity|]. split.
  - simpl. rewrite !app_assoc. reflexivity.
  - split.
    + intro Hm. rewrite (file_refs_missing fs files Hm). reflexivity.
    + intros H1 H2. apply String.eqb_neq in H1, H2. rewrite H1, H2, app_nil_r. reflexivity.
Qed.

Lemma build_command_shape_witness :
  let fs : FileSystem := fun p => if String.eqb p "a.py" then FsFile (Some 10) else FsMissing in
  let options := mkOptions (Some "m") (Some "json") None in
  build_command SERVICES fs "gemini" "hi" ["a.py"; "gone"] options
  = Some ["gemini"; "--model"; "m"; "--output-format"; "json"; "-p"; "@a.py hi"] /\
  forall argv, build_command SERVICES fs "gemini" "hi" ["gone"] options = Some argv ->
  exists svc mid full,
    lookup_service SERVICES "gemini" = Some svc /\
    argv = sc_command svc :: mid ++ ["-p"; full] /\
    ((forall f, In f ["gone"] -> fs f = FsMissing) -> full = "hi") /\
    ("gemini" <> "gemini" -> "gemini" <> "qwen" ->
     mid = opt_args "--model" (opt_model options) ++ opt_args "--temperature" (opt_temperature options)).
Proof.
  intros fs options. split; [reflexivity|].
  intro argv. apply build_command_shape.
Defined.

Lemma lookup_set_service (services : list (string * ServiceConfig)) (key k : string)
    (sc : ServiceConfig) :
  lookup_service (set_service services key sc) k
  = if String.eqb key k then Some sc else lookup_service services k.
Proof.
  induction services as [|[k' v] rest IH]; simpl.
  - destruct (String.eqb key k); reflexivity.
  - destruct (String.eqb_spec k' key) as [->|Hne]; simpl.
    + destruct (String.eqb key k); reflexivity.
    + rewrite IH. destruct (String.eqb_spec key k) as [->|]; [|reflexivity].
      apply String.eqb_neq in Hne. rewrite Hne. reflexivity.
Qed.

Lemma merge_services_keeps (services : list (string * ServiceConfig))
    (entries : list (string * ConfigEntry)) (k : string) (sc : ServiceConfig) :
  lookup_service services k = Some sc ->
  exists sc', lookup_service (fst (merge_services services entries)) k = Some sc'
              /\ name sc' = name sc.
Proof.
  revert services sc. induction entries as [|[key c] rest IH]; intros services sc Hl; simpl.
  - exists sc. split; [exact Hl|reflexivity].
  - destruct (lookup_service services key) as [current|] eqn:Ek.
    + set (updated := mkServiceConfig (name current) (get_or (ce_command c) (sc_command current))
                        (get_or (ce_auth_method c) (auth_method current))
                        (get_or (ce_auth_env_var c) (auth_env_var current))
                        (get_or (ce_quota_limits c) (quota_limits current))).
      destruct (String.eqb_spec key k) as [<-|Hne].
      * destruct (IH (set_service services key updated) updated) as [sc' [H1 H2]].
        { rewrite lookup_set_service, String.eqb_refl. reflexivity. }
        exists sc'. split; [exact H1|]. rewrite H2. simpl. congruence.
      * apply IH. rewrite lookup_set_service. apply String.eqb_neq in Hne. rewrite Hne. exact Hl.
    + destruct (new_service_config c) as [nsc|].
      * apply IH. rewrite lookup_set_service.
        destruct (String.eqb_spec key k) as [<-|_]; [congruence|exact Hl].
      * exists sc. split; [exact Hl|reflexivity].
Qed.

(** [load_configurations] never drops a service nor changes its name,
    whatever [config.json] holds (even a [name] key given for it). *)
Theorem load_configurations_keeps_services (services : list (string * ServiceConfig))
    (cfg : ConfigFile) (k : string) (sc : ServiceConfig) :
  lookup_service services k = Some sc ->
  exists sc', lookup_service (load_configurations services cfg) k = Some sc'
              /\ name sc' = name sc.
Proof.
  intro Hl. destruct cfg as [| |entries]; simpl.
  - exists sc. split; [exact Hl|reflexivity].
  - exists sc. split; [exact Hl|reflexivity].
  - apply merge_services_keeps. exact Hl.
Qed.

Lemma load_configurations_keeps_services_witness :
  let cfg := ConfigServices
               [("gemini", mkConfigEntry (Some "other") (Some "gemini2") None None None false)] in
  option_map sc_command (lookup_service (load_configurations SERVICES cfg) "gemini")
  = Some "gemini2" /\
  exists sc', lookup_service (load_configurations SERVICES cfg) "gemini" = Some sc'
              /\ name sc' = "gemini".
Proof.
  intro cfg. split; [reflexivity|].
  exact (load_configurations_keeps_services SERVICES cfg "gemini"
           (mkServiceConfig "gemini" "gemini" "api_key" (Some "GEMINI_API_KEY")
              [("requests_per_minute", 60); ("requests_per_day", 1000);
               ("tokens_per_day", 1000000)]) eq_refl).
Defined.

Lemma merge_services_app (services : list (string * ServiceConfig))
    (l1 l2 : list (string * ConfigEntry)) :
  merge_services services (l1 ++ l2)
  = let '(s1, ok) := merge_services services l1 in
    if ok then merge_services s1 l2 else (s1, false).
Proof.
  revert services. induction l1 as [|[key c] rest IH]; intro services; simpl; [reflexivity|].
  destruct (lookup_service services key); [apply IH|].
  destruct (new_service_config c); [apply IH|reflexivity].
Qed.

(** A new service entry [ServiceConfig] rejects ends the merge of
    [load_configurations]: the entries before it stay merged and none
    after it is applied. *)
Theorem load_configurations_stops_at_invalid (services s1 : list (string * ServiceConfig))
    (pre post : list (string * ConfigEntry)) (key : string) (c : ConfigEntry) :
  merge_services services pre = (s1, true) ->
  lookup_service s1 key = None ->
  new_service_config c = None ->
  load_configurations services (ConfigServices (pre ++ (key, c) :: post)) = s1.
Proof.
  intros Hpre Hk Hc. simpl. rewrite merge_services_app, Hpre. simpl.
  rewrite Hk, Hc. reflexivity.
Qed.

Lemma load_configurations_stops_at_invalid_witness :
  let ok1 := mkConfigEntry (Some "a") (Some "a") (Some "cli") None None false in
  let bad := mkConfigEntry (Some "b") None (Some "cli") None None false in
  let ok2 := mkConfigEntry (Some "c") (Some "c") (Some "cli") None None false in
  let s1 := SERVICES ++ [("a", mkServiceConfig "a" "a" "cli" None [])] in
  map fst (load_configurations SERVICES
             (ConfigServices [("a", ok1); ("b", bad); ("c", ok2)]))
  = ["gemini"; "qwen"; "a"] /\
  load_configurations SERVICES (ConfigServices ([("a", ok1)] ++ ("b", bad) :: [("c", ok2)])) = s1.
Proof.
  intros ok1 bad ok2 s1. split; [reflexivity|].
  apply load_configurations_stops_at_invalid; reflexivity.
Defined.

End DelegatorExtra.
